(** * Feature extraction from e-mail messages: [personal/lib/email.py]

    A shallow embedding of [EmailContent] and [EmailReader] and the
    properties of their statistics, body extraction and record assembly.

    Python [str] values are modelled as [string]; [bytes] as [list byte];
    Python [int] counters, which only grow from zero, as [nat]; the one
    [float] (the uppercase ratio, an [int / int] true division) as the exact
    rational of [Q].  Exceptions are explicit: fallible code returns a
    [result]. *)

From Stdlib Require Import QArith Qround.
From stdpp Require Import base option list strings pretty gmap.
From Stdlib.Strings Require Import Ascii String Byte.

Local Open Scope string_scope.
Local Open Scope list_scope.

(* ================================================================== *)
(** ** Exceptions and results *)

(** The exception classes that the code raises, catches or lets through. *)
Inductive exn : Set :=
  | IndexError
  | KeyError
  | LookupError
  | UnicodeDecodeError
  | UnicodeError
  | ValueError
  | AttributeError
  | ZeroDivisionError
  | OSError.

(** [isinstance(e, LookupError)]: [IndexError] and [KeyError] are its
    subclasses. *)
Definition is_LookupError (e : exn) : bool :=
  match e with
  | LookupError | IndexError | KeyError => true
  | _ => false
  end.

(** [isinstance(e, UnicodeDecodeError)]; [UnicodeError] is its parent class
    and is not an instance. *)
Definition is_UnicodeDecodeError (e : exn) : bool :=
  match e with
  | UnicodeDecodeError => true
  | _ => false
  end.

Inductive result (A : Type) : Type :=
  | Ok (a : A)
  | Raise (e : exn).
Arguments Ok {A} a.
Arguments Raise {A} e.

(** Sequencing: an exception ends the computation ([x ← r; k] below). *)
#[global] Instance result_bind : MBind result := fun A B k r =>
  match r with
  | Ok a => k a
  | Raise e => Raise e
  end.

#[global] Instance result_ret : MRet result := fun A a => Ok a.

Definition returns {A} (r : result A) : Prop := exists a, r = Ok a.

(** [a / b] on two [int]s: the quotient, [ZeroDivisionError] when [b] is
    zero. *)
Definition true_div (a b : nat) : result Q :=
  if (b =? 0)%nat then Raise ZeroDivisionError
  else Ok (Z.of_nat a # Pos.of_nat b).

(** [l[i]] on a list: [IndexError] out of range. *)
Definition index {A} (l : list A) (i : nat) : result A :=
  match l !! i with
  | Some x => Ok x
  | None => Raise IndexError
  end.

(* ================================================================== *)
(** ** Strings *)

(** [len(s)] is [String.length].  [sep.join(l)]: *)
Fixpoint join (sep : string) (l : list string) : string :=
  match l with
  | [] => EmptyString
  | [s] => s
  | s :: rest => s +:+ sep +:+ join sep rest
  end.

(** [s.split(sep)] for a one-character separator: the segments between
    successive occurrences, empty segments kept; a single empty segment for the
    empty string. *)
Fixpoint split (sep : ascii) (s : string) : list string :=
  match s with
  | EmptyString => [EmptyString]
  | String c s' =>
      if Ascii.eqb c sep then EmptyString :: split sep s'
      else match split sep s' with
           | seg :: rest => String c seg :: rest
           | [] => [String c EmptyString]
           end
  end.

(** [s.count(c)] for a one-character argument. *)
Fixpoint count (c : ascii) (s : string) : nat :=
  match s with
  | EmptyString => 0
  | String c' s' => (if Ascii.eqb c' c then 1 else 0) + count c s'
  end.

(** [s.startswith(p)] and [s.endswith(p)]. *)
Definition startswith (s p : string) : bool := String.prefix p s.

Definition endswith (s p : string) : bool :=
  let n := String.length s in
  let k := String.length p in
  (k <=? n)%nat && String.eqb (String.substring (n - k) k s) p.

(** [s.endswith((p1, ..., pn))]: some element of the tuple is a suffix. *)
Definition endswith_any (s : string) (ps : list string) : bool :=
  existsb (endswith s) ps.

(** ASCII lowercase of one character, for header-name lookup. *)
Definition ascii_lower_char (c : ascii) : ascii :=
  let n := nat_of_ascii c in
  if (65 <=? n)%nat && (n <=? 90)%nat then ascii_of_nat (n + 32) else c.

Definition ascii_upper_char (c : ascii) : ascii :=
  let n := nat_of_ascii c in
  if (97 <=? n)%nat && (n <=? 122)%nat then ascii_of_nat (n - 32) else c.

Fixpoint string_map (f : ascii -> ascii) (s : string) : string :=
  match s with
  | EmptyString => EmptyString
  | String c s' => String (f c) (string_map f s')
  end.

(* ================================================================== *)
(** ** Insertion-ordered dictionaries

    A Python [dict] whose order is observed ([json.dumps], the columns of
    the output table) is an association list with unique keys, in insertion
    order. *)

Definition dict (V : Type) : Type := list (string * V).

Fixpoint dict_get {V} (d : dict V) (k : string) : option V :=
  match d with
  | [] => None
  | (k', v) :: d' => if String.eqb k' k then Some v else dict_get d' k
  end.

(** [k in d]. *)
Definition dict_contains {V} (d : dict V) (k : string) : bool :=
  match dict_get d k with Some _ => true | None => false end.

(** [d[k] = v]: in place when the key is present, appended otherwise. *)
Fixpoint dict_set {V} (d : dict V) (k : string) (v : V) : dict V :=
  match d with
  | [] => [(k, v)]
  | (k', v') :: d' =>
      if String.eqb k' k then (k', v) :: d' else (k', v') :: dict_set d' k v
  end.

(** [d[k]]: [KeyError] on a missing key. *)
Definition dict_item {V} (d : dict V) (k : string) : result V :=
  match dict_get d k with
  | Some v => Ok v
  | None => Raise KeyError
  end.

Definition dict_keys {V} (d : dict V) : list string := d.*1.

(** [d.values()]. *)
Definition dict_values {V} (d : dict V) : list V := d.*2.

(* ================================================================== *)
(** ** Parsed messages

    What [email.message.EmailMessage] exposes to this module: the headers,
    [get_content_type()], [get_content_charset()], and a payload that is
    either the bytes of [get_payload(decode=True)] or the list of direct
    child parts. *)

#[warnings="-register-all"] Inductive EmailMessage : Type :=
  | Message (headers : list (string * string))
            (content_type : string)
            (content_charset : option string)
            (payload : list byte + list EmailMessage).

Definition msg_headers (m : EmailMessage) : list (string * string) :=
  let 'Message h _ _ _ := m in h.

Definition get_content_type (m : EmailMessage) : string :=
  let 'Message _ t _ _ := m in t.

Definition get_content_charset (m : EmailMessage) : option string :=
  let 'Message _ _ c _ := m in c.

Definition msg_payload (m : EmailMessage) : list byte + list EmailMessage :=
  let 'Message _ _ _ p := m in p.

(** [email.is_multipart()]: the payload is a list of parts. *)
Definition is_multipart (m : EmailMessage) : bool :=
  match msg_payload m with inl _ => false | inr _ => true end.

(** [email.iter_parts()]: the direct children, nothing for a single part. *)
Definition iter_parts (m : EmailMessage) : list EmailMessage :=
  match msg_payload m with inl _ => [] | inr ps => ps end.

(** [part.get_payload(decode=True)]: [None] on a multipart part. *)
Definition get_payload_decode (m : EmailMessage) : option (list byte) :=
  match msg_payload m with inl b => Some b | inr _ => None end.

(** [email.get(name)]: the first header of that name, compared without
    case; [None] when absent.  The value is the text that the policy
    delivers; a structured header whose value the policy fails to parse
    makes [email.get] itself raise, and such headers are not among the
    messages modelled here. *)
Definition get (m : EmailMessage) (name : string) : option string :=
  snd <$> find (fun h => String.eqb (string_map ascii_lower_char h.1)
                                    (string_map ascii_lower_char name))
               (msg_headers m).

(* ================================================================== *)
(** ** The interpreter and the libraries

    What the module calls and does not define: the case tables of [str],
    the whitespace class of [re], BeautifulSoup, the codec registry,
    [email.utils.getaddresses], [json.dumps] and the file system behind
    [load_email]. *)

Record Runtime : Type := {
  (** [s.upper()] and [s.lower()] *)
  str_upper : string -> string;
  str_lower : string -> string;
  (** the characters that the pattern [\s] matches *)
  re_space : ascii -> bool;
  (** [BeautifulSoup(html, "html.parser").get_text()] *)
  soup_get_text : string -> result string;
  (** [b.decode(label, errors="replace")] for a label other than the
      literal ["latin-1"] *)
  codec_decode : string -> list byte -> result string;
  (** [email.utils.getaddresses(fieldvalues)] *)
  getaddresses : list (option string) -> list (string * string);
  (** [json.dumps(d)] on a dictionary of counters *)
  json_dumps : dict nat -> string;
  (** [load_email(path)]: open and parse the file *)
  load_email : string -> result EmailMessage
}.

(** [b.decode(charset, errors="replace")].  The Latin-1 decoder maps each
    byte to the code point of the same number and cannot fail. *)
Definition bytes_decode (rt : Runtime) (charset : string) (b : list byte)
  : result string :=
  if String.eqb charset "latin-1" then Ok (string_of_list_byte b)
  else codec_decode rt charset b.

(* ================================================================== *)
(** ** Module constants and helpers *)

Definition CONTENT_TYPE_HTML : string := "text/html".
Definition CONTENT_TYPE_PLAIN : string := "text/plain".
Definition HTML : string := "html".
Definition PLAIN : string := "plain".

(** The state of [RE_SPACES.sub(" ", _)] while it scans: no pending
    whitespace, one pending whitespace character (kept as it is), or a run
    of two or more (replaced by one space). *)
Inductive ws_run : Set :=
  | NoRun
  | One (c : ascii)
  | Many.

Definition flush (r : ws_run) (k : string) : string :=
  match r with
  | NoRun => k
  | One c => String c k
  | Many => String " " k
  end.

Fixpoint sub_spaces (is_ws : ascii -> bool) (r : ws_run) (s : string) : string :=
  match s with
  | EmptyString => flush r EmptyString
  | String c s' =>
      if is_ws c
      then sub_spaces is_ws (match r with NoRun => One c | _ => Many end) s'
      else flush r (String c (sub_spaces is_ws NoRun s'))
  end.

(** [RE_SPACES.sub(" ", spaced_text)] with [RE_SPACES = \s{2,}]. *)
Definition _collapse_spaces (rt : Runtime) (spaced_text : string) : string :=
  sub_spaces (re_space rt) NoRun spaced_text.

Definition _count_words (text : string) : nat :=
  List.length (split " " text).

(** [bool(RE_WHITESPACE.match(text))]: the pattern [\s] matches at the
    start of [text]. *)
Definition _is_whitespace (rt : Runtime) (text : string) : bool :=
  match text with
  | EmptyString => false
  | String c _ => re_space rt c
  end.

(** The [except Exception] branch returns the empty string. *)
Definition html_to_text (rt : Runtime) (html : string) : string :=
  match soup_get_text rt html with
  | Ok html_stripped => _collapse_spaces rt html_stripped
  | Raise _ => EmptyString
  end.

(* ================================================================== *)
(** ** [EmailContent] *)

Record EmailContent : Type := {
  html : option string;
  plain : option string;
  plain_stripped : option string;
  content_types : dict nat;
  multipart : bool;
  html_text : option string;
  non_main_count : nat
}.

(** [EmailContent.__init__] *)
Definition EmailContent_init (rt : Runtime) (html plain : option string)
    (content_types : dict nat) (multipart : bool) (non_main_count : nat)
  : EmailContent :=
  {| html := html;
     plain := plain;
     plain_stripped := _collapse_spaces rt <$> plain;
     content_types := content_types;
     multipart := multipart;
     html_text := html_to_text rt <$> html;
     non_main_count := non_main_count |}.

Definition TYPE_HTML : string := "html".
Definition TYPE_PLAIN : string := "plain".
Definition TYPE_BOTH : string := "both".

Definition has_both (self : EmailContent) : bool :=
  bool_decide (html self <> None) && bool_decide (plain self <> None).

(** The property [type]. *)
Definition type (self : EmailContent) : string :=
  if has_both self then TYPE_BOTH
  else
    let has_html := bool_decide (html self <> None) in
    if has_html then TYPE_HTML else TYPE_PLAIN.

Definition get_total_length (self : EmailContent) : nat :=
  let l := 0 in
  let l := match html self with Some h => l + String.length h | None => l end in
  let l := match plain self with Some p => l + String.length p | None => l end in
  l.

Definition get_word_count (rt : Runtime) (self : EmailContent) : nat :=
  let count := 0 in
  let count := match html_text self with
               | Some t => count + _count_words t
               | None => count
               end in
  let count := match plain self with
               | Some p => count + _count_words (_collapse_spaces rt p)
               | None => count
               end in
  count.

(** One round of the inner loop of [get_uppercase_ratio] on the character
    [c], on the pair [(total_upper, total_lower)]. *)
Definition classify (rt : Runtime) (c : ascii) (totals : nat * nat) : nat * nat :=
  let c := String c EmptyString in
  let '(total_upper, total_lower) := totals in
  if String.eqb (str_upper rt c) c then (total_upper + 1, total_lower)
  else if negb (_is_whitespace rt c) then (total_upper, total_lower + 1)
  else (total_upper, total_lower).

Fixpoint scan_text (rt : Runtime) (text : string) (totals : nat * nat) : nat * nat :=
  match text with
  | EmptyString => totals
  | String c text' => scan_text rt text' (classify rt c totals)
  end.

(** The list [process]: [html_text] then [plain], those that are present. *)
Definition process (self : EmailContent) : list string :=
  option_list (html_text self) ++ option_list (plain self).

(** [(total_upper, total_lower)] when both loops are done. *)
Definition case_totals (rt : Runtime) (self : EmailContent) : nat * nat :=
  foldl (fun totals text => scan_text rt text totals) (0, 0) (process self).

Definition get_uppercase_ratio (rt : Runtime) (self : EmailContent) : result Q :=
  let '(total_upper, total_lower) := case_totals rt self in
  let divisor := Nat.max 1 (total_upper + total_lower) in
  true_div total_upper divisor.

Definition get_explamation_count (self : EmailContent) : nat :=
  let exclamations := 0 in
  let exclamations := match html_text self with
                      | Some t => exclamations + count "!" t
                      | None => exclamations
                      end in
  let exclamations := match plain self with
                      | Some p => exclamations + count "!" p
                      | None => exclamations
                      end in
  exclamations.

(* ================================================================== *)
(** ** [EmailReader]: the body *)

Definition LATIN_1 : string := "latin-1".
Definition NEWLINE : string := String "010" EmptyString.

(** The receiver of [.decode]: [None.decode] is an [AttributeError]. *)
Definition payload_bytes (part : EmailMessage) : result (list byte) :=
  match get_payload_decode part with
  | Some b => Ok b
  | None => Raise AttributeError
  end.

Definition _safe_get_content (rt : Runtime) (part : EmailMessage) : result string :=
  let charset := get_content_charset part in
  let charset :=
    match charset with
    | None => LATIN_1
    | Some label =>
        if bool_decide (str_lower rt label ∈ ["default_charset"; "unknown-8bit"])
        then LATIN_1 else label
    end in
  match b ← payload_bytes part; bytes_decode rt charset b with
  | Ok text => Ok text
  | Raise e =>
      if is_LookupError e || is_UnicodeDecodeError e
      then b ← payload_bytes part; bytes_decode rt LATIN_1 b
      else Raise e
  end.

(** The variables of the multipart loop of [_get_body].  [parts] is a
    [defaultdict(list)]; its order is never observed. *)
Record BodyLoop : Type := {
  types_counter : dict nat;
  non_main_types : nat;
  parts : gmap string (list string)
}.

(** [parts[key].append(text)] on the [defaultdict]. *)
Definition parts_append (parts : gmap string (list string)) (key text : string)
  : gmap string (list string) :=
  <[key := default [] (parts !! key) ++ [text]]> parts.

(** One round of [for part in email.iter_parts()]. *)
Definition body_step (rt : Runtime) (st : BodyLoop) (part : EmailMessage)
  : result BodyLoop :=
  let content_type := get_content_type part in
  let types_counter :=
    if negb (dict_contains (types_counter st) content_type)
    then dict_set (types_counter st) content_type 0
    else types_counter st in
  n ← dict_item types_counter content_type;
  let types_counter := dict_set types_counter content_type (n + 1) in
  if String.eqb content_type CONTENT_TYPE_HTML then
    text ← _safe_get_content rt part;
    Ok {| types_counter := types_counter;
          non_main_types := non_main_types st;
          parts := parts_append (parts st) HTML text |}
  else if String.eqb content_type CONTENT_TYPE_PLAIN then
    text ← _safe_get_content rt part;
    Ok {| types_counter := types_counter;
          non_main_types := non_main_types st;
          parts := parts_append (parts st) PLAIN text |}
  else
    Ok {| types_counter := types_counter;
          non_main_types := non_main_types st + 1;
          parts := parts st |}.

Fixpoint body_loop (rt : Runtime) (ps : list EmailMessage) (st : BodyLoop)
  : result BodyLoop :=
  match ps with
  | [] => Ok st
  | part :: ps' => st' ← body_step rt st part; body_loop rt ps' st'
  end.

Definition body_loop_init : BodyLoop :=
  {| types_counter := []; non_main_types := 0; parts := ∅ |}.

(** [None if key not in parts else "\n".join(parts[key])] *)
Definition concat_parts (parts : gmap string (list string)) (key : string)
  : option string :=
  join NEWLINE <$> parts !! key.

(** [_get_body].  Its [except Exception as e: ... raise e] prints and raises
    the same exception again, so an exception of the body is the result. *)
Definition _get_body (rt : Runtime) (email : EmailMessage) : result EmailContent :=
  if is_multipart email then
    st ← body_loop rt (iter_parts email) body_loop_init;
    let html_concat := concat_parts (parts st) HTML in
    let plain_concat := concat_parts (parts st) PLAIN in
    Ok (EmailContent_init rt html_concat plain_concat (types_counter st)
          true (non_main_types st))
  else
    let content_type := str_lower rt (get_content_type email) in
    let types_counter := [(content_type, 1)] in
    if String.eqb content_type CONTENT_TYPE_HTML then
      html_content ← _safe_get_content rt email;
      Ok (EmailContent_init rt (Some html_content) None types_counter false 0)
    else if String.eqb content_type CONTENT_TYPE_PLAIN then
      plain_content ← _safe_get_content rt email;
      Ok (EmailContent_init rt None (Some plain_content) types_counter false 0)
    else
      (* "multipart/..." without parts, or an unhandled type: a message is
         printed in both branches *)
      Ok (EmailContent_init rt None None types_counter false 0).

(** The three outcomes of a part in the loop, and the fragments gathered
    so far under a key of [parts]. *)
Definition is_html (part : EmailMessage) : bool :=
  String.eqb (get_content_type part) CONTENT_TYPE_HTML.

Definition is_plain (part : EmailMessage) : bool :=
  String.eqb (get_content_type part) CONTENT_TYPE_PLAIN.

Definition is_ignored (part : EmailMessage) : bool :=
  negb (is_html part) && negb (is_plain part).

Definition fragments (st : BodyLoop) (key : string) : list string :=
  default [] (parts st !! key).

(** No key of [parts] holds an empty list: a key appears with its first
    fragment. *)
Definition no_empty_entry (parts : gmap string (list string)) : Prop :=
  forall key, parts !! key <> Some [].


(* ================================================================== *)
(** ** [EmailReader]: the record of one message *)

(** The values that the cells of a record hold. *)
Inductive Value : Type :=
  | VNone
  | VStr (s : string)
  | VBool (b : bool)
  | VInt (n : nat)
  | VFloat (q : Q).

Definition opt_str (o : option string) : Value :=
  match o with
  | Some s => VStr s
  | None => VNone
  end.

(** The tuple passed to [endswith] in [_convert_one]. *)
Definition FREEMAIL : list string :=
  ["gmail.com"; "hotmail.com"; "yahoo.com"; "msn.com"].

(** [from_name_and_email[0][1].split("@")[1].endswith((...))] *)
Definition uses_freemail (from_name_and_email : list (string * string))
  : result bool :=
  first ← index from_name_and_email 0;
  domain ← index (split "@" first.2) 1;
  Ok (endswith_any domain FREEMAIL).

(** [",".join([e for e in l if len(e) > 0])] *)
Definition join_nonempty (l : list string) : string :=
  join "," (List.filter (fun e => (0 <? String.length e)%nat) l).

Definition _convert_one (rt : Runtime) (email : EmailMessage)
  : result (dict Value) :=
  content ← _get_body rt email;
  let from_email := get email "From" in
  let from_name_and_email := getaddresses rt [from_email] in
  from_uses_freemail ← uses_freemail from_name_and_email;
  let to_emails := get email "To" in
  let to_names_and_emails := getaddresses rt [to_emails] in
  let to_emails_count := List.length to_names_and_emails in
  let to_names := join_nonempty (to_names_and_emails.*1) in
  let to_emails_only := join_nonempty (to_names_and_emails.*2) in
  let reply_to := get email "Reply-To" in
  let reply_to_names_and_emails := getaddresses rt [reply_to] in
  let to_is_reply_to :=
    bool_decide (to_emails <> None) && bool_decide (to_emails = reply_to) in
  let list_unsub := get email "List-Unsubscribe" in
  let has_list_unsub := bool_decide (list_unsub <> None) in
  let char_count := get_total_length content in
  let word_count := get_word_count rt content in
  shoutiness ← get_uppercase_ratio rt content;
  let exclamations := get_explamation_count content in
  from_first ← index from_name_and_email 0;
  reply_to_first ← index reply_to_names_and_emails 0;
  let msg_data : dict Value :=
    [ ("subject", opt_str (get email "Subject"));
      ("from_raw", opt_str from_email);
      ("from_name", VStr from_first.1);
      ("from_email", VStr from_first.2);
      ("from_uses_freemail", VBool from_uses_freemail);
      ("to_raw", opt_str to_emails);
      ("to_names", VStr to_names);
      ("to_emails", VStr to_emails_only);
      ("to_emails_count", VInt to_emails_count);
      ("reply_to_raw", opt_str reply_to);
      ("reply_to_name", VStr reply_to_first.1);
      ("reply_to_email", VStr reply_to_first.2);
      ("to_is_reply_to", VBool to_is_reply_to);
      ("cc", opt_str (get email "Cc"));
      ("list_unsub", opt_str list_unsub);
      ("has_list_unsub", VBool has_list_unsub);
      ("content_type_raw", opt_str (get email "Content-Type"));
      ("date", opt_str (get email "Date"));
      ("message_id", opt_str (get email "Message-ID"));
      ("x_mailer", opt_str (get email "X-Mailer"));
      ("user_agent", opt_str (get email "User-Agent"));
      ("type", VStr (type content));
      ("html_body", opt_str (html content));
      ("html_body_stripped", opt_str (html_text content));
      ("plain_body", opt_str (plain content));
      ("plain_body_stripped", opt_str (plain_stripped content));
      ("content_types", VStr (json_dumps rt (content_types content)));
      ("non_main_content", VInt (non_main_count content));
      ("multipart", VBool (multipart content));
      ("char_count", VInt char_count);
      ("word_count", VInt word_count);
      ("shoutiness", VFloat shoutiness);
      ("exclamations", VInt exclamations) ] in
  Ok msg_data.

(** The keys of [msg_data], in the order of the dictionary display. *)
Definition msg_data_keys : list string :=
  [ "subject"; "from_raw"; "from_name"; "from_email"; "from_uses_freemail";
    "to_raw"; "to_names"; "to_emails"; "to_emails_count"; "reply_to_raw";
    "reply_to_name"; "reply_to_email"; "to_is_reply_to"; "cc"; "list_unsub";
    "has_list_unsub"; "content_type_raw"; "date"; "message_id"; "x_mailer";
    "user_agent"; "type"; "html_body"; "html_body_stripped"; "plain_body";
    "plain_body_stripped"; "content_types"; "non_main_content"; "multipart";
    "char_count"; "word_count"; "shoutiness"; "exclamations" ].

(* ================================================================== *)
(** ** [EmailReader.read] *)

(** What this module observes of a [pandas.DataFrame] built from a list of
    dictionaries: the column labels, which are the keys in the order of
    first appearance, and one row per dictionary, in order. *)
Record DataFrame : Type := {
  columns : list string;
  rows : list (dict Value)
}.

Definition add_columns (cols : list string) (row : dict Value) : list string :=
  cols ++ filter (fun k => k ∉ cols) (remove_dups (dict_keys row)).

Definition pd_DataFrame (dict_list : list (dict Value)) : DataFrame :=
  {| columns := foldl add_columns [] dict_list;
     rows := dict_list |}.

(** [for path in emails: ... dict_list.append(converted)] *)
Fixpoint read_loop (rt : Runtime) (emails : list string)
    (dict_list : list (dict Value)) : result (list (dict Value)) :=
  match emails with
  | [] => Ok dict_list
  | path :: emails' =>
      email ← load_email rt path;
      converted ← _convert_one rt email;
      read_loop rt emails' (dict_list ++ [converted])
  end.

Definition read (rt : Runtime) (emails : list string) : result DataFrame :=
  dict_list ← read_loop rt emails [];
  Ok (pd_DataFrame dict_list).

(* ================================================================== *)
(** ** A small interpreter and the messages of the scenarios

    [cpython] stands for the interpreter on the inputs used below: ASCII
    text, header values that are one bare address, a codec registry that
    holds, besides Latin-1, the codec [undefined] of the standard library
    (it raises [UnicodeError] on every non-empty input), and two stored
    files. *)

Definition ascii_space (c : ascii) : bool :=
  let n := nat_of_ascii c in
  ((9 <=? n)%nat && (n <=? 13)%nat) || ((28 <=? n)%nat && (n <=? 32)%nat).

(** Markup-free text is its own visible text. *)
Definition plain_get_text (html : string) : result string := Ok html.

Definition small_registry (label : string) (b : list byte) : result string :=
  if String.eqb label "undefined"
  then match b with [] => Ok EmptyString | _ => Raise UnicodeError end
  else Raise LookupError.

(** [str(None)] is ["None"], which parses as one address without a name. *)
Definition bare_getaddresses (fieldvalues : list (option string))
  : list (string * string) :=
  (fun v => (EmptyString, default "None" v)) <$> fieldvalues.

Definition DQUOTE : string := String "034" EmptyString.

(** Keys that need no escaping. *)
Definition plain_json_dumps (d : dict nat) : string :=
  "{" +:+ join ", " ((fun kv => DQUOTE +:+ kv.1 +:+ DQUOTE +:+ ": " +:+ pretty kv.2) <$> d)
      +:+ "}".

Definition text_message (from body : string) : EmailMessage :=
  Message [("From", from); ("Content-Type", "text/plain")]
          "text/plain" None (inl (list_byte_of_string body)).

(** Scenario A: one plain-text part. *)
Definition hello_message : EmailMessage :=
  text_message "alice@example.org" "HELLO world!!".

Definition second_message : EmailMessage :=
  text_message "bob@gmail.com" "see you".

(** A body of one space. *)
Definition blank_message : EmailMessage :=
  text_message "alice@example.org" " ".

(** Scenario C: a multipart message whose only part is a PDF. *)
Definition pdf_message : EmailMessage :=
  Message [("From", "alice@example.org"); ("Content-Type", "multipart/mixed")]
          "multipart/mixed" None
          (inr [Message [("Content-Type", "application/pdf")]
                        "application/pdf" None (inl (list_byte_of_string "%PDF"))]).

(** Scenario B: one HTML part and one plain part. *)
Definition alternative_message : EmailMessage :=
  Message [("From", "alice@example.org"); ("Content-Type", "multipart/alternative")]
          "multipart/alternative" None
          (inr [Message [("Content-Type", "text/html")]
                        "text/html" None (inl (list_byte_of_string "Hi"));
                Message [("Content-Type", "text/plain")]
                        "text/plain" None (inl (list_byte_of_string "Hi"))]).

(** [Content-Type: text/plain; charset=undefined] *)
Definition undefined_charset_message : EmailMessage :=
  Message [("From", "alice@example.org");
           ("Content-Type", "text/plain; charset=undefined")]
          "text/plain" (Some "undefined") (inl (list_byte_of_string "abc")).

(** A sender whose local part is a quoted string that holds an [@]. *)
Definition quoted_sender : string :=
  DQUOTE +:+ "a@b" +:+ DQUOTE +:+ "@gmail.com".

Definition quoted_sender_message : EmailMessage :=
  text_message quoted_sender "hello".

(** No [From] header. *)
Definition anonymous_message : EmailMessage :=
  Message [("Content-Type", "text/plain")]
          "text/plain" None (inl (list_byte_of_string "hello")).

Definition stored_files (path : string) : result EmailMessage :=
  if String.eqb path "easy_ham/00066" then Ok hello_message
  else if String.eqb path "easy_ham/00067" then Ok second_message
  else Raise OSError.

Definition cpython : Runtime :=
  {| str_upper := string_map ascii_upper_char;
     str_lower := string_map ascii_lower_char;
     re_space := ascii_space;
     soup_get_text := plain_get_text;
     codec_decode := small_registry;
     getaddresses := bare_getaddresses;
     json_dumps := plain_json_dumps;
     load_email := stored_files |}.

(** ** The spec's reading of the free-mail test, for comparison

    "the email's domain (substring after first [@]) ends with one of the
    providers". *)
Fixpoint after_first_at (email : string) : string :=
  match email with
  | EmptyString => EmptyString
  | String c email' => if Ascii.eqb c "@" then email' else after_first_at email'
  end.

Definition spec_uses_freemail (email : string) : bool :=
  endswith_any (after_first_at email) FREEMAIL.

(** The text before the first [@], all of it when there is none. *)
Fixpoint up_to_at (s : string) : string :=
  match s with
  | EmptyString => EmptyString
  | String c s' => if Ascii.eqb c "@" then EmptyString else String c (up_to_at s')
  end.

(* ================================================================== *)
(** ** Notions used to state further properties *)

(** Two adjacent whitespace characters somewhere in the text: what
    [RE_SPACES] matches. *)
Fixpoint has_ws_run (is_ws : ascii -> bool) (s : string) : bool :=
  match s with
  | String c (String c' _ as s') => (is_ws c && is_ws c') || has_ws_run is_ws s'
  | _ => false
  end.

(** The text does not start with a whitespace character. *)
Definition starts_nonws (is_ws : ascii -> bool) (s : string) : bool :=
  match s with
  | EmptyString => true
  | String c _ => negb (is_ws c)
  end.

(** The characters that are not whitespace, in order. *)
Fixpoint nonws_chars (is_ws : ascii -> bool) (s : string) : list ascii :=
  match s with
  | EmptyString => []
  | String c s' => if is_ws c then nonws_chars is_ws s' else c :: nonws_chars is_ws s'
  end.

(** The number of characters that the loops of [get_uppercase_ratio] visit. *)
Definition scanned_chars (self : EmailContent) : nat :=
  sum_list (String.length <$> process self).

(** [[f(x) for x in l]] for a fallible [f]: the first exception ends it. *)
Fixpoint mapM {A B} (f : A -> result B) (l : list A) : result (list B) :=
  match l with
  | [] => Ok []
  | x :: l' => y ← f x; ys ← mapM f l'; Ok (y :: ys)
  end.

(** The parts whose content type is [t]. *)
Definition parts_of_type (t : string) (ps : list EmailMessage) : list EmailMessage :=
  List.filter (fun part => String.eqb (get_content_type part) t) ps.

(** What the handler of [_safe_get_content] catches. *)
Definition caught (e : exn) : bool :=
  is_LookupError e || is_UnicodeDecodeError e.

(** Loading and converting one source, as one round of [read] does. *)
Definition load_and_convert (rt : Runtime) (path : string) : result (dict Value) :=
  email ← load_email rt path; _convert_one rt email.

(** A label that no codec of [small_registry] answers to. *)
Definition bogus_charset_message : EmailMessage :=
  Message [("From", "alice@example.org");
           ("Content-Type", "text/plain; charset=x-bogus")]
          "text/plain" (Some "x-bogus") (inl (list_byte_of_string "abc")).

(** A placeholder label, in upper case. *)
Definition placeholder_charset_message : EmailMessage :=
  Message [("From", "alice@example.org");
           ("Content-Type", "text/plain; charset=DEFAULT_CHARSET")]
          "text/plain" (Some "DEFAULT_CHARSET") (inl (list_byte_of_string "abc")).


(** A single part that is neither HTML nor plain text. *)
Definition image_message : EmailMessage :=
  Message [("From", "alice@example.org"); ("Content-Type", "image/png")]
          "image/png" None (inl (list_byte_of_string "PNG")).

(* ================================================================== *)
(** * Properties *)

(** ** Results and dictionaries *)

Lemma bind_Ok {A B} (r : result A) (k : A -> result B) (b : B) :
  (r ≫= k) = Ok b -> exists a, r = Ok a /\ k a = Ok b.
Proof. destruct r as [a|e]; simpl; [eauto | discriminate]. Qed.

Lemma bind_Raise {A B} (r : result A) (k : A -> result B) (e : exn) :
  r = Raise e -> (r ≫= k) = Raise e.
Proof. intros ->. reflexivity. Qed.

Lemma index_nil {A} (i : nat) : index (@nil A) i = Raise IndexError.
Proof. destruct i; reflexivity. Qed.

Lemma dict_get_set_eq {V} (d : dict V) k v :
  dict_get (dict_set d k v) k = Some v.
Proof.
  induction d as [|[k' v'] d IH]; simpl.
  - rewrite String.eqb_refl. reflexivity.
  - destruct (String.eqb k' k) eqn:E; simpl; rewrite E; [reflexivity | exact IH].
Qed.

Lemma sum_dict_set_fresh (d : dict nat) k v :
  dict_get d k = None ->
  sum_list (dict_values (dict_set d k v)) = sum_list (dict_values d) + v.
Proof.
  unfold dict_values.
  induction d as [|[k' v'] d IH]; csimpl; intros H.
  - lia.
  - destruct (String.eqb k' k); [discriminate|]. csimpl. rewrite IH by exact H. lia.
Qed.

Lemma sum_dict_set_present (d : dict nat) k n v :
  dict_get d k = Some n ->
  sum_list (dict_values (dict_set d k v)) + n = sum_list (dict_values d) + v.
Proof.
  unfold dict_values.
  induction d as [|[k' v'] d IH]; csimpl; intros H.
  - discriminate.
  - destruct (String.eqb k' k); csimpl.
    + injection H as ->. lia.
    + specialize (IH H). lia.
Qed.

(** ** The statistics of a bundle *)

Lemma Zpos_of_nat (n : nat) : n <> 0 -> Zpos (Pos.of_nat n) = Z.of_nat n.
Proof.
  intros H. rewrite <- positive_nat_Z, Nat2Pos.id by exact H. reflexivity.
Qed.

(** The quotient of the ratio is defined and lies between 0 and 1,
    whatever the two totals are. *)
Lemma true_div_max (u l : nat) :
  exists q, true_div u (Nat.max 1 (u + l)) = Ok q /\ (0 <= q)%Q /\ (q <= 1)%Q.
Proof.
  unfold true_div.
  destruct (Nat.eqb_spec (Nat.max 1 (u + l)) 0) as [E|E]; [lia|].
  eexists; split; [reflexivity|].
  unfold Qle; simpl. rewrite Zpos_of_nat by exact E. lia.
Qed.

Lemma process_no_text (self : EmailContent) :
  html_text self = None -> plain self = None -> process self = [].
Proof. unfold process. intros -> ->. reflexivity. Qed.

Lemma init_html_text (rt : Runtime) html plain cts mp n :
  html_text (EmailContent_init rt html plain cts mp n) = html_to_text rt <$> html.
Proof. reflexivity. Qed.

(** C8. For every content bundle, whatever its texts, the uppercase ratio is
    computed without a division by zero (the divisor is
    [max(1, upper + lower)]) and lies in the closed interval from 0 to 1. *)
Theorem uppercase_ratio_bounds (rt : Runtime) (self : EmailContent) :
  exists q, get_uppercase_ratio rt self = Ok q /\ (0 <= q)%Q /\ (q <= 1)%Q.
Proof.
  unfold get_uppercase_ratio.
  destruct (case_totals rt self) as [total_upper total_lower].
  apply true_div_max.
Qed.

(** C10. A bundle built with neither HTML nor plain text has total length 0,
    word count 0, uppercase ratio 0 and exclamation count 0. *)
Theorem null_bundle_statistics (rt : Runtime) (cts : dict nat) (mp : bool) (n : nat) :
  let self := EmailContent_init rt None None cts mp n in
  get_total_length self = 0 /\
  get_word_count rt self = 0 /\
  get_uppercase_ratio rt self = Ok (0 # 1) /\
  get_explamation_count self = 0.
Proof. repeat split. Qed.

(** C1 as the spec has it fails: on the body ["HELLO world!!"] the ratio of
    the built record is not one half. *)
Lemma hello_shoutiness_not_half :
  exists content msg_data q,
    _get_body cpython hello_message = Ok content /\
    plain content = Some "HELLO world!!" /\ html content = None /\
    _convert_one cpython hello_message = Ok msg_data /\
    dict_get msg_data "shoutiness" = Some (VFloat q) /\
    ~ (q == 1 # 2)%Q.
Proof.
  eexists; eexists; eexists. split_and!; try (vm_compute; reflexivity).
  vm_compute. discriminate.
Qed.

(** C1, amended. For the single-part plain-text message with body
    ["HELLO world!!"], the built record has word count 2 and exclamation
    count 2; the five lowercase letters count as lower, the five uppercase
    letters and the two exclamation marks count as upper, so at least 7
    characters are upper against exactly 5 lower and the ratio, upper over
    upper plus lower, is at least 7/12. *)
Theorem hello_statistics :
  exists content msg_data total_upper q,
    _get_body cpython hello_message = Ok content /\
    _convert_one cpython hello_message = Ok msg_data /\
    dict_get msg_data "word_count" = Some (VInt 2) /\
    dict_get msg_data "exclamations" = Some (VInt 2) /\
    dict_get msg_data "shoutiness" = Some (VFloat q) /\
    case_totals cpython content = (total_upper, 5) /\
    7 <= total_upper /\
    (q == Z.of_nat total_upper # Pos.of_nat (total_upper + 5))%Q /\
    (7 # 12 <= q)%Q.
Proof.
  eexists; eexists; eexists; eexists.
  split_and!; try (vm_compute; reflexivity).
  - vm_compute. lia.
  - vm_compute. discriminate.
Qed.

(** C2 at a body of one space: the space equals its own uppercase form, is
    counted as upper, and the ratio is 1 where the claim has 0. *)
Theorem blank_body_ratio :
  exists content msg_data,
    _get_body cpython blank_message = Ok content /\
    process content = [" "] /\
    _is_whitespace cpython " " = true /\
    case_totals cpython content = (1, 0) /\
    get_uppercase_ratio cpython content = Ok (1 # 1) /\
    _convert_one cpython blank_message = Ok msg_data /\
    dict_get msg_data "shoutiness" = Some (VFloat (1 # 1)).
Proof. eexists; eexists. split_and!; vm_compute; reflexivity. Qed.

(** When every text of the bundle is empty, the ratio is 0. *)
Lemma empty_text_ratio (rt : Runtime) (self : EmailContent) :
  Forall (fun text => text = EmptyString) (process self) ->
  get_uppercase_ratio rt self = Ok (0 # 1).
Proof.
  intros H. unfold get_uppercase_ratio, case_totals.
  assert (E : forall totals,
             foldl (fun totals text => scan_text rt text totals) totals (process self)
             = totals).
  { induction H as [|text texts -> _ IH]; intros totals; simpl; [reflexivity | apply IH]. }
  rewrite E. reflexivity.
Qed.

(** ** Decoding *)

(** The Latin-1 tier cannot fail. *)
Lemma bytes_decode_latin_1 (rt : Runtime) (b : list byte) :
  bytes_decode rt LATIN_1 b = Ok (string_of_list_byte b).
Proof. reflexivity. Qed.

(** Decoding returns a string whenever the codec of the declared label
    returns or raises one of the two exceptions that are caught. *)
Lemma safe_get_content_returns (rt : Runtime) (part : EmailMessage) (b : list byte) :
  get_payload_decode part = Some b ->
  (forall label e, codec_decode rt label b = Raise e ->
                   is_LookupError e || is_UnicodeDecodeError e = true) ->
  returns (_safe_get_content rt part).
Proof.
  intros Hb Hcaught. unfold _safe_get_content, payload_bytes. rewrite Hb. simpl.
  match goal with |- context [bytes_decode rt ?cs b] => set (charset := cs) end.
  unfold bytes_decode at 1.
  destruct (String.eqb charset "latin-1").
  - eexists; reflexivity.
  - destruct (codec_decode rt charset b) as [text|e] eqn:E.
    + eexists; reflexivity.
    + rewrite (Hcaught _ _ E). eexists; reflexivity.
Qed.

(** An absent charset is decoded as Latin-1. *)
Lemma safe_get_content_no_charset (rt : Runtime) h t (b : list byte) :
  _safe_get_content rt (Message h t None (inl b)) = Ok (string_of_list_byte b).
Proof. reflexivity. Qed.

(** C3 at the label [undefined]: the codec raises [UnicodeError], which is
    neither a [LookupError] nor a [UnicodeDecodeError]; the handler does not
    catch it and the extraction of the body fails with it. *)
Theorem undefined_charset_raises :
  get_content_charset undefined_charset_message = Some "undefined" /\
  get_payload_decode undefined_charset_message = Some (list_byte_of_string "abc") /\
  is_LookupError UnicodeError || is_UnicodeDecodeError UnicodeError = false /\
  _safe_get_content cpython undefined_charset_message = Raise UnicodeError /\
  _get_body cpython undefined_charset_message = Raise UnicodeError /\
  _convert_one cpython undefined_charset_message = Raise UnicodeError.
Proof. repeat split. Qed.

(** ** The multipart loop *)

Lemma counter_update (tc : dict nat) (ct : string) :
  let tc1 := if negb (dict_contains tc ct) then dict_set tc ct 0 else tc in
  exists n, dict_item tc1 ct = Ok n /\
            sum_list (dict_values (dict_set tc1 ct (n + 1)))
            = sum_list (dict_values tc) + 1.
Proof.
  unfold dict_contains, dict_item.
  destruct (dict_get tc ct) as [n|] eqn:E; simpl.
  - rewrite E. exists n. split; [reflexivity|].
    pose proof (sum_dict_set_present tc ct n (n + 1) E). lia.
  - rewrite dict_get_set_eq. exists 0. split; [reflexivity|].
    pose proof (sum_dict_set_present (dict_set tc ct 0) ct 0 (0 + 1)
                  (dict_get_set_eq tc ct 0)).
    pose proof (sum_dict_set_fresh tc ct 0 E). lia.
Qed.

Lemma fragments_append_eq (st : BodyLoop) tc nm key text :
  fragments {| types_counter := tc; non_main_types := nm;
               parts := parts_append (parts st) key text |} key
  = fragments st key ++ [text].
Proof. unfold fragments, parts_append. simpl. rewrite lookup_insert_eq. reflexivity. Qed.

Lemma fragments_append_ne (st : BodyLoop) tc nm key key' text :
  key <> key' ->
  fragments {| types_counter := tc; non_main_types := nm;
               parts := parts_append (parts st) key text |} key'
  = fragments st key'.
Proof.
  intros H. unfold fragments, parts_append. simpl.
  rewrite lookup_insert_ne by exact H. reflexivity.
Qed.

Lemma html_not_plain (part : EmailMessage) :
  is_html part = true -> is_plain part = false.
Proof.
  unfold is_html, is_plain. intros H%String.eqb_eq. rewrite H. reflexivity.
Qed.

(** What one round of the loop does to the counters: the part is counted in
    [types_counter], and in exactly one of the two fragment lists and
    [non_main_types]. *)
Lemma body_step_counts (rt : Runtime) (st st' : BodyLoop) (part : EmailMessage) :
  body_step rt st part = Ok st' ->
  sum_list (dict_values (types_counter st'))
    = sum_list (dict_values (types_counter st)) + 1 /\
  List.length (fragments st' HTML)
    = List.length (fragments st HTML) + (if is_html part then 1 else 0) /\
  List.length (fragments st' PLAIN)
    = List.length (fragments st PLAIN) + (if is_plain part then 1 else 0) /\
  non_main_types st'
    = non_main_types st + (if is_ignored part then 1 else 0).
Proof.
  unfold body_step, is_ignored.
  destruct (counter_update (types_counter st) (get_content_type part))
    as (n & Hn & Hsum).
  cbv zeta in Hn, Hsum. rewrite Hn. simpl.
  fold (is_html part). fold (is_plain part).
  destruct (is_html part) eqn:Hh.
  - rewrite (html_not_plain _ Hh).
    destruct (_safe_get_content rt part) as [text|e]; simpl; [|discriminate].
    intros [= <-]. rewrite fragments_append_eq, fragments_append_ne by discriminate.
    rewrite length_app. simpl. repeat split; lia.
  - destruct (is_plain part) eqn:Hp.
    + destruct (_safe_get_content rt part) as [text|e]; simpl; [|discriminate].
      intros [= <-]. rewrite fragments_append_eq, fragments_append_ne by discriminate.
      rewrite length_app. simpl. repeat split; lia.
    + intros [= <-]. simpl. unfold fragments. simpl. repeat split; lia.
Qed.

Lemma body_step_no_empty (rt : Runtime) (st st' : BodyLoop) (part : EmailMessage) :
  body_step rt st part = Ok st' ->
  no_empty_entry (parts st) -> no_empty_entry (parts st').
Proof.
  unfold body_step.
  destruct (dict_item _ _) as [n|e]; simpl; [|discriminate].
  assert (Happ : forall key text,
             no_empty_entry (parts st) ->
             no_empty_entry (parts_append (parts st) key text)).
  { intros key text H key'. unfold parts_append.
    destruct (decide (key = key')) as [->|Hne].
    - rewrite lookup_insert_eq. intros [= E]. by destruct (default [] _).
    - rewrite lookup_insert_ne by exact Hne. apply H. }
  repeat match goal with
         | |- context [if ?b then _ else _] => destruct b
         | |- context [_safe_get_content rt part] =>
             destruct (_safe_get_content rt part); simpl; [|discriminate]
         end; intros [= <-]; simpl; auto.
Qed.



(** The counters when the loop is done, by induction on the parts. *)
Lemma body_loop_counts (rt : Runtime) (ps : list EmailMessage) :
  forall st st',
    body_loop rt ps st = Ok st' ->
    sum_list (dict_values (types_counter st'))
      = sum_list (dict_values (types_counter st)) + List.length ps /\
    List.length (fragments st' HTML)
      = List.length (fragments st HTML) + List.length (List.filter is_html ps) /\
    List.length (fragments st' PLAIN)
      = List.length (fragments st PLAIN) + List.length (List.filter is_plain ps) /\
    non_main_types st'
      = non_main_types st + List.length (List.filter is_ignored ps) /\
    (no_empty_entry (parts st) -> no_empty_entry (parts st')).
Proof.
  induction ps as [|part ps IH]; intros st st'; simpl.
  - intros [= <-]. repeat split; auto; lia.
  - intros (st1 & Hstep & Hloop)%bind_Ok.
    destruct (body_step_counts _ _ _ _ Hstep) as (S1 & H1 & P1 & N1).
    destruct (IH _ _ Hloop) as (S2 & H2 & P2 & N2 & E2).
    pose proof (body_step_no_empty _ _ _ _ Hstep) as E1.
    repeat split; auto;
      destruct (is_html part), (is_plain part), (is_ignored part);
      simpl in *; lia.
Qed.






(** ** The kind of a bundle *)

(** C5. The kind is ["both"] iff html and plain are both non-null, ["html"]
    iff only html is non-null, and ["plain"] otherwise, that is whenever
    html is null; so a bundle with both null has kind ["plain"], as the
    multipart message whose only part is a PDF shows: html and plain are
    null, [non_main_count] is 1 and the kind is ["plain"], in the bundle
    and in the record built from it. *)
Theorem kind_null_duality (rt : Runtime) (self : EmailContent) :
  (type self = TYPE_BOTH <-> html self <> None /\ plain self <> None) /\
  (type self = TYPE_HTML <-> html self <> None /\ plain self = None) /\
  (type self = TYPE_PLAIN <-> ~ (html self <> None /\ plain self <> None)
                              /\ ~ (html self <> None /\ plain self = None)) /\
  (html self = None -> plain self = None -> type self = TYPE_PLAIN) /\
  exists content msg_data,
    _get_body rt pdf_message = Ok content /\
    html content = None /\ plain content = None /\
    non_main_count content = 1 /\
    type content = TYPE_PLAIN /\
    _convert_one cpython pdf_message = Ok msg_data /\
    dict_get msg_data "type" = Some (VStr "plain") /\
    dict_get msg_data "non_main_content" = Some (VInt 1) /\
    dict_get msg_data "html_body" = Some VNone /\
    dict_get msg_data "plain_body" = Some VNone.
Proof.
  split_and!.
  - unfold type, has_both.
    destruct (html self), (plain self); simpl; split;
      try discriminate; intuition congruence.
  - unfold type, has_both.
    destruct (html self), (plain self); simpl; split;
      try discriminate; intuition congruence.
  - unfold type, has_both.
    destruct (html self), (plain self); simpl; split;
      try discriminate; intuition congruence.
  - unfold type, has_both. intros -> ->. reflexivity.
  - eexists; eexists. split_and!; try reflexivity; vm_compute; reflexivity.
Qed.

(** ** The sender *)

Lemma split_head (s : string) : exists rest, split "@" s = up_to_at s :: rest.
Proof.
  induction s as [|c s [rest IH]]; simpl.
  - eexists; reflexivity.
  - destruct (Ascii.eqb c "@"); [eexists; reflexivity|].
    rewrite IH. eexists; reflexivity.
Qed.

(** With an [@] in [addr], [addr.split("@")[1]] is the text between the
    first [@] and the next one, or the end. *)
Lemma split_second (addr : string) :
  0 < count "@" addr ->
  index (split "@" addr) 1 = Ok (up_to_at (after_first_at addr)).
Proof.
  unfold index.
  induction addr as [|c s IH]; simpl; [lia|].
  destruct (Ascii.eqb c "@"); simpl.
  - intros _. destruct (split_head s) as [rest ->]. reflexivity.
  - intros H. specialize (IH H).
    destruct (split_head s) as [rest E]. rewrite E in IH |- *. exact IH.
Qed.

Lemma substring_app_r (pre p : string) :
  String.substring (String.length pre) (String.length p) (pre +:+ p) = p.
Proof.
  induction pre as [|c pre IH]; simpl; [|exact IH].
  induction p as [|c p IHp]; simpl; [reflexivity|]. f_equal. exact IHp.
Qed.

Lemma substring_full (s : string) : String.substring 0 (String.length s) s = s.
Proof. induction s as [|c s IH]; simpl; [reflexivity|]. f_equal. exact IH. Qed.

Lemma substring_split (s : string) :
  forall m, m <= String.length s ->
  s = String.substring 0 m s +:+ String.substring m (String.length s - m) s.
Proof.
  induction s as [|c s IH]; intros [|m] H; simpl in *; try reflexivity; try lia.
  - rewrite substring_full. reflexivity.
  - change (String c s
            = String c (String.substring 0 m s
                        +:+ String.substring m (String.length s - m) s)).
    f_equal. apply IH. lia.
Qed.

Lemma length_string_app (a b : string) :
  String.length (a +:+ b) = String.length a + String.length b.
Proof. induction a as [|c a IH]; simpl; [reflexivity|]. rewrite IH. reflexivity. Qed.

(** [endswith] is the suffix test, compared character by character. *)
Lemma endswith_spec (s p : string) :
  endswith s p = true <-> exists pre, s = pre +:+ p.
Proof.
  unfold endswith. rewrite andb_true_iff, Nat.leb_le, String.eqb_eq. split.
  - intros [Hle Hsub].
    exists (String.substring 0 (String.length s - String.length p) s).
    pose proof (substring_split s (String.length s - String.length p)) as E.
    replace (String.length s - (String.length s - String.length p))
      with (String.length p) in E by lia.
    rewrite Hsub in E. apply E. lia.
  - intros [pre ->]. rewrite length_string_app. split; [lia|].
    replace (String.length pre + String.length p - String.length p)
      with (String.length pre) by lia.
    apply substring_app_r.
Qed.

Lemma endswith_any_spec (s : string) (ps : list string) :
  endswith_any s ps = true <-> exists p pre, In p ps /\ s = pre +:+ p.
Proof.
  unfold endswith_any. rewrite existsb_exists. split.
  - intros (p & Hin & (pre & E)%endswith_spec). eauto.
  - intros (p & pre & Hin & E). exists p. split; [exact Hin|].
    apply endswith_spec. eauto.
Qed.

Lemma uses_freemail_first (name addr : string) (rest : list (string * string)) :
  0 < count "@" addr ->
  uses_freemail ((name, addr) :: rest)
  = Ok (endswith_any (up_to_at (after_first_at addr)) FREEMAIL).
Proof.
  intros H. unfold uses_freemail. simpl. rewrite (split_second addr H). reflexivity.
Qed.

(** Peels the successful steps off a computation that returned. *)
Ltac returned H :=
  repeat (let a := fresh "a" in
          let Ha := fresh "Ha" in
          apply bind_Ok in H as (a & Ha & H); cbv beta zeta in H).

Lemma convert_one_fields (rt : Runtime) (email : EmailMessage) (msg_data : dict Value) :
  _convert_one rt email = Ok msg_data ->
  dict_keys msg_data = msg_data_keys /\
  exists first b,
    index (getaddresses rt [get email "From"]) 0 = Ok first /\
    uses_freemail (getaddresses rt [get email "From"]) = Ok b /\
    dict_get msg_data "from_email" = Some (VStr first.2) /\
    dict_get msg_data "from_uses_freemail" = Some (VBool b).
Proof.
  unfold _convert_one. intros H. returned H.
  injection H as <-. split; [reflexivity|].
  eexists; eexists. split_and!; try eassumption; reflexivity.
Qed.

(** C7 at the sender ["a@b"@gmail.com], whose quoted local part holds an
    [@]: the From header parses to one pair whose email contains an [@], the
    domain, which is the text after the first [@] as the claim reads it,
    ends with [gmail.com], and [from_uses_freemail] is false where the claim
    has true: [split("@")[1]] is the text between the first two [@], not
    the domain. *)
Lemma quoted_sender_not_freemail :
  exists msg_data,
    getaddresses cpython [get quoted_sender_message "From"]
      = [(EmptyString, quoted_sender)] /\
    0 < count "@" quoted_sender /\
    _convert_one cpython quoted_sender_message = Ok msg_data /\
    dict_get msg_data "from_uses_freemail" = Some (VBool false) /\
    spec_uses_freemail quoted_sender = true.
Proof.
  eexists. split_and!; try (vm_compute; reflexivity). vm_compute. lia.
Qed.

(** What the sender expression computes on every message whose From header
    parses to at least one pair whose email contains an [@]: the test of the
    providers on the text between the first [@] and the next one (or the
    end, when there is no other). *)
Theorem from_uses_freemail_segment (rt : Runtime) (email : EmailMessage)
    (name addr : string) (rest : list (string * string)) :
  getaddresses rt [get email "From"] = (name, addr) :: rest ->
  0 < count "@" addr ->
  let domain := up_to_at (after_first_at addr) in
  uses_freemail (getaddresses rt [get email "From"])
    = Ok (endswith_any domain FREEMAIL) /\
  (endswith_any domain FREEMAIL = true <->
   exists provider pre,
     In provider ["gmail.com"; "hotmail.com"; "yahoo.com"; "msn.com"] /\
     domain = pre +:+ provider) /\
  (forall msg_data,
     _convert_one rt email = Ok msg_data ->
     dict_get msg_data "from_email" = Some (VStr addr) /\
     dict_get msg_data "from_uses_freemail"
       = Some (VBool (endswith_any domain FREEMAIL))).
Proof.
  intros Hfrom Hat domain. split_and!.
  - rewrite Hfrom. apply uses_freemail_first, Hat.
  - apply endswith_any_spec.
  - intros msg_data (_ & first & b & Hfirst & Hb & Hemail & Hflag)%convert_one_fields.
    rewrite Hfrom in Hfirst, Hb. injection Hfirst as <-.
    rewrite (uses_freemail_first _ _ _ Hat) in Hb. injection Hb as <-.
    split; assumption.
Qed.

Lemma from_uses_freemail_segment_witness :
  let domain := up_to_at (after_first_at "bob@gmail.com") in
  uses_freemail (getaddresses cpython [get second_message "From"])
    = Ok (endswith_any domain FREEMAIL) /\
  (endswith_any domain FREEMAIL = true <->
   exists provider pre,
     In provider ["gmail.com"; "hotmail.com"; "yahoo.com"; "msn.com"] /\
     domain = pre +:+ provider) /\
  (forall msg_data,
     _convert_one cpython second_message = Ok msg_data ->
     dict_get msg_data "from_email" = Some (VStr "bob@gmail.com") /\
     dict_get msg_data "from_uses_freemail"
       = Some (VBool (endswith_any domain FREEMAIL))).
Proof.
  apply (from_uses_freemail_segment cpython second_message EmptyString
           "bob@gmail.com" []).
  - reflexivity.
  - simpl. lia.
Defined.

(** C9. When the From header is absent ([getaddresses] then sees [None],
    whose text ["None"] parses as one address without an [@]) or parses to
    zero addresses, the sender expression raises [IndexError], nothing
    catches it and no default is substituted: building the record fails,
    with [IndexError] whenever the body was extracted. *)
Theorem missing_from_fails (rt : Runtime) (email : EmailMessage) :
  getaddresses rt [None] = [(EmptyString, "None")] ->
  get email "From" = None \/ getaddresses rt [get email "From"] = [] ->
  uses_freemail (getaddresses rt [get email "From"]) = Raise IndexError /\
  (exists e, _convert_one rt email = Raise e) /\
  (returns (_get_body rt email) -> _convert_one rt email = Raise IndexError).
Proof.
  intros Hnone Hfrom.
  assert (Huses : uses_freemail (getaddresses rt [get email "From"])
                  = Raise IndexError).
  { destruct Hfrom as [-> | ->]; [rewrite Hnone|]; reflexivity. }
  split; [exact Huses|].
  unfold _convert_one.
  destruct (_get_body rt email) as [content|e]; simpl.
  - rewrite Huses. simpl. split; [eexists|]; reflexivity.
  - split; [eexists; reflexivity|]. intros [content [=]].
Qed.

Lemma missing_from_fails_witness :
  uses_freemail (getaddresses cpython [get anonymous_message "From"])
    = Raise IndexError /\
  (exists e, _convert_one cpython anonymous_message = Raise e) /\
  (returns (_get_body cpython anonymous_message) ->
   _convert_one cpython anonymous_message = Raise IndexError).
Proof.
  apply (missing_from_fails cpython anonymous_message).
  - reflexivity.
  - left. reflexivity.
Defined.

(** ** The table *)

Lemma msg_data_keys_first (row : dict Value) :
  dict_keys row = msg_data_keys -> add_columns [] row = msg_data_keys.
Proof. unfold add_columns. intros ->. vm_compute. reflexivity. Qed.

Lemma msg_data_keys_again (row : dict Value) :
  dict_keys row = msg_data_keys -> add_columns msg_data_keys row = msg_data_keys.
Proof. unfold add_columns. intros ->. vm_compute. reflexivity. Qed.

Lemma columns_stay (dict_list : list (dict Value)) :
  Forall (fun row => dict_keys row = msg_data_keys) dict_list ->
  foldl add_columns msg_data_keys dict_list = msg_data_keys.
Proof.
  induction 1 as [|row dict_list Hrow _ IH]; simpl; [reflexivity|].
  rewrite (msg_data_keys_again row Hrow). exact IH.
Qed.

Lemma columns_of_rows (dict_list : list (dict Value)) :
  dict_list <> [] ->
  Forall (fun row => dict_keys row = msg_data_keys) dict_list ->
  columns (pd_DataFrame dict_list) = msg_data_keys.
Proof.
  intros Hne Hkeys. unfold pd_DataFrame. simpl.
  destruct Hkeys as [|row dict_list Hrow Hrest]; [congruence|]. simpl.
  rewrite (msg_data_keys_first row Hrow). apply columns_stay, Hrest.
Qed.

(** The loop appends one record per path, in the order of the paths. *)
Lemma read_loop_appends (rt : Runtime) (emails : list string)
    (converted : list (dict Value)) :
  Forall2 (fun path msg_data =>
             (email ← load_email rt path; _convert_one rt email) = Ok msg_data)
          emails converted ->
  forall dict_list,
    read_loop rt emails dict_list = Ok (dict_list ++ converted).
Proof.
  induction 1 as [|path msg_data emails converted Hone _ IH]; intros dict_list; simpl.
  - rewrite app_nil_r. reflexivity.
  - apply bind_Ok in Hone as (email & Hload & Hone).
    rewrite Hload. simpl. rewrite Hone. simpl.
    rewrite IH, <- app_assoc. reflexivity.
Qed.

(** C6 as the spec has it fails: the table of two stored messages has 33
    columns. *)
Lemma two_messages_columns :
  exists df,
    read cpython ["easy_ham/00066"; "easy_ham/00067"] = Ok df /\
    List.length (rows df) = 2 /\
    List.length (columns df) = 33 /\
    List.length (columns df) <> 28.
Proof.
  eexists. split_and!; try (vm_compute; reflexivity). vm_compute. lia.
Qed.

(** C6, amended. For every list of message sources that all load and
    convert, the batch read returns a table with exactly one row per input
    message, in input order; when the list is not empty the columns are the
    33 keys of [msg_data], in their order. *)
Theorem read_rows_and_columns (rt : Runtime) (emails : list string)
    (converted : list (dict Value)) :
  Forall2 (fun path msg_data =>
             (email ← load_email rt path; _convert_one rt email) = Ok msg_data)
          emails converted ->
  exists df,
    read rt emails = Ok df /\
    rows df = converted /\
    List.length (rows df) = List.length emails /\
    (emails <> [] ->
     columns df = msg_data_keys /\ List.length (columns df) = 33).
Proof.
  intros Hall. exists (pd_DataFrame converted).
  unfold read. rewrite (read_loop_appends rt emails converted Hall []). simpl.
  split_and!; try reflexivity.
  - symmetry. eapply Forall2_length, Hall.
  - intros Hne.
    assert (E : columns (pd_DataFrame converted) = msg_data_keys).
    { apply columns_of_rows.
      - intros ->. apply Forall2_nil_inv_r in Hall. contradiction.
      - clear Hne. induction Hall as [|path msg_data ? ? Hone _ IH]; constructor; [|exact IH].
        apply bind_Ok in Hone as (email & _ & Hone).
        apply (convert_one_fields rt email msg_data Hone). }
    change (columns (pd_DataFrame converted) = msg_data_keys
            /\ List.length (columns (pd_DataFrame converted)) = 33).
    rewrite E. split; reflexivity.
Qed.

Lemma read_rows_and_columns_witness :
  exists converted df,
    read cpython ["easy_ham/00066"; "easy_ham/00067"] = Ok df /\
    rows df = converted /\
    List.length (rows df) = 2 /\
    (["easy_ham/00066"; "easy_ham/00067"] <> [] ->
     columns df = msg_data_keys /\ List.length (columns df) = 33).
Proof.
  eexists.
  apply (read_rows_and_columns cpython ["easy_ham/00066"; "easy_ham/00067"]).
  repeat constructor; vm_compute; reflexivity.
Defined.

(* ================================================================== *)
(** * Further properties *)

(** ** Splitting and collapsing *)

Lemma split_length (sep : ascii) (s : string) :
  List.length (split sep s) = count sep s + 1.
Proof.
  induction s as [|c s IH]; simpl; [reflexivity|].
  destruct (Ascii.eqb c sep); simpl; [rewrite IH; reflexivity|].
  destruct (split sep s) as [|seg rest]; simpl in *; lia.
Qed.

(** X1. The word count of a text is the number of its space characters plus
    one: the empty text counts as one word, and so does every empty segment
    between two spaces. *)
Theorem count_words_spaces (text : string) :
  _count_words text = count " " text + 1 /\ 1 <= _count_words text.
Proof.
  unfold _count_words. rewrite split_length. split; lia.
Qed.

Lemma has_ws_run_cons (is_ws : ascii -> bool) (x : ascii) (t : string) :
  starts_nonws is_ws t = true -> has_ws_run is_ws t = false ->
  has_ws_run is_ws (String x t) = false.
Proof.
  destruct t as [|c t]; simpl; [reflexivity|].
  intros H%negb_true_iff ->. rewrite H, andb_false_r. reflexivity.
Qed.

Lemma has_ws_run_nonws (is_ws : ascii -> bool) (x : ascii) (t : string) :
  is_ws x = false -> has_ws_run is_ws (String x t) = has_ws_run is_ws t.
Proof. destruct t as [|c t]; simpl; [reflexivity|]. intros ->. reflexivity. Qed.

(** The shape of the output of the scan, by its pending state. *)
Lemma sub_spaces_shape (is_ws : ascii -> bool) (s : string) :
  forall r,
    match r with
    | NoRun => has_ws_run is_ws (sub_spaces is_ws r s) = false
    | _ => exists x t, sub_spaces is_ws r s = String x t /\
                       starts_nonws is_ws t = true /\
                       has_ws_run is_ws t = false
    end.
Proof.
  induction s as [|c s IH]; intros r.
  - destruct r; simpl; eauto.
  - simpl. destruct (is_ws c) eqn:Hc.
    + destruct r.
      * destruct (IH (One c)) as (x & t & -> & Hs & Ht).
        apply has_ws_run_cons; assumption.
      * apply (IH Many).
      * apply (IH Many).
    + pose proof (IH NoRun) as Hrest. simpl in Hrest.
      assert (Hc' : has_ws_run is_ws (String c (sub_spaces is_ws NoRun s)) = false).
      { rewrite has_ws_run_nonws by exact Hc. exact Hrest. }
      destruct r; unfold flush.
      * exact Hc'.
      * eexists; eexists. split; [reflexivity|].
        split; [simpl; rewrite Hc; reflexivity | exact Hc'].
      * eexists; eexists. split; [reflexivity|].
        split; [simpl; rewrite Hc; reflexivity | exact Hc'].
Qed.

(** A text without a run goes through the scan unchanged. *)
Lemma sub_spaces_fixed (is_ws : ascii -> bool) (s : string) :
  has_ws_run is_ws s = false ->
  sub_spaces is_ws NoRun s = s /\
  (forall c, starts_nonws is_ws s = true ->
             sub_spaces is_ws (One c) s = String c s).
Proof.
  induction s as [|c0 s IH]; intros Hrun.
  - split; reflexivity.
  - assert (Hs : has_ws_run is_ws s = false).
    { destruct s as [|c1 s]; [reflexivity|].
      simpl in Hrun. apply orb_false_iff in Hrun as [_ H]. exact H. }
    destruct (IH Hs) as [IH0 IH1]. simpl.
    destruct (is_ws c0) eqn:H0.
    + split; [|discriminate].
      apply IH1. destruct s as [|c1 s]; [reflexivity|].
      simpl in Hrun |- *. rewrite H0 in Hrun. simpl in Hrun.
      apply orb_false_iff in Hrun as [-> _]. reflexivity.
    + rewrite IH0. split; [reflexivity|]. intros c _. reflexivity.
Qed.

Lemma sub_spaces_length (is_ws : ascii -> bool) (s : string) :
  forall r,
    String.length (sub_spaces is_ws r s)
    <= String.length s + match r with NoRun => 0 | _ => 1 end.
Proof.
  induction s as [|c s IH]; intros r; simpl.
  - destruct r; simpl; lia.
  - destruct (is_ws c).
    + destruct r; [specialize (IH (One c)) | specialize (IH Many) ..]; simpl in IH; lia.
    + specialize (IH NoRun). destruct r; simpl in *; lia.
Qed.

Lemma sub_spaces_nonws (is_ws : ascii -> bool) (s : string) :
  is_ws " "%char = true ->
  forall r,
    match r with One c => is_ws c = true | _ => True end ->
    nonws_chars is_ws (sub_spaces is_ws r s) = nonws_chars is_ws s.
Proof.
  intros Hsp. induction s as [|c s IH]; intros r Hr; simpl.
  - destruct r; simpl; [reflexivity| rewrite Hr | rewrite Hsp]; reflexivity.
  - destruct (is_ws c) eqn:Hc.
    + destruct r; apply IH; auto.
    + destruct r; simpl; rewrite ?Hr, ?Hsp, Hc, (IH NoRun I); reflexivity.
Qed.

(** X2. The collapsed text has no two adjacent whitespace characters, and
    neither has the text that [html_to_text] returns. *)
Theorem collapse_spaces_no_run (rt : Runtime) (text : string) :
  has_ws_run (re_space rt) (_collapse_spaces rt text) = false /\
  has_ws_run (re_space rt) (html_to_text rt text) = false.
Proof.
  split.
  - apply (sub_spaces_shape (re_space rt) text NoRun).
  - unfold html_to_text. destruct (soup_get_text rt text); [|reflexivity].
    apply (sub_spaces_shape (re_space rt) _ NoRun).
Qed.

(** X3. Collapsing is idempotent, and a text that has no two adjacent
    whitespace characters is returned as it is. *)
Theorem collapse_spaces_idempotent (rt : Runtime) (text : string) :
  _collapse_spaces rt (_collapse_spaces rt text) = _collapse_spaces rt text /\
  (has_ws_run (re_space rt) text = false -> _collapse_spaces rt text = text).
Proof.
  split.
  - apply sub_spaces_fixed, (sub_spaces_shape (re_space rt) text NoRun).
  - intros H. apply sub_spaces_fixed, H.
Qed.

(** X4. Collapsing never makes the text longer. *)
Theorem collapse_spaces_length (rt : Runtime) (text : string) :
  String.length (_collapse_spaces rt text) <= String.length text.
Proof.
  pose proof (sub_spaces_length (re_space rt) text NoRun). simpl in *.
  unfold _collapse_spaces. lia.
Qed.

(** X5. When the space is a whitespace character, collapsing keeps the
    characters that are not whitespace, in their order. *)
Theorem collapse_spaces_keeps_text (rt : Runtime) (text : string) :
  re_space rt " "%char = true ->
  nonws_chars (re_space rt) (_collapse_spaces rt text)
  = nonws_chars (re_space rt) text.
Proof.
  intros Hsp. apply (sub_spaces_nonws (re_space rt) text Hsp NoRun I).
Qed.

Lemma collapse_spaces_keeps_text_witness :
  nonws_chars (re_space cpython) (_collapse_spaces cpython "a  b !")
  = nonws_chars (re_space cpython) "a  b !".
Proof.
  apply (collapse_spaces_keeps_text cpython "a  b !"). reflexivity.
Defined.

(** ** The two totals of the uppercase ratio *)

Lemma classify_bounds (rt : Runtime) (c : ascii) (totals : nat * nat) :
  let totals' := classify rt c totals in
  totals'.1 + totals'.2 <= totals.1 + totals.2 + 1 /\
  totals'.2 <= totals.2 + (if re_space rt c then 0 else 1).
Proof.
  destruct totals as [u l]. unfold classify, _is_whitespace.
  destruct (String.eqb _ _); simpl; [destruct (re_space rt c); lia|].
  destruct (re_space rt c); simpl; lia.
Qed.

Lemma scan_text_bounds (rt : Runtime) (text : string) :
  forall totals,
    let totals' := scan_text rt text totals in
    totals'.1 + totals'.2 <= totals.1 + totals.2 + String.length text /\
    totals'.2 <= totals.2 + List.length (nonws_chars (re_space rt) text).
Proof.
  induction text as [|c text IH]; intros totals; simpl.
  - lia.
  - destruct (IH (classify rt c totals)) as [H1 H2].
    destruct (classify_bounds rt c totals) as [C1 C2].
    destruct (re_space rt c); simpl in *; lia.
Qed.

Lemma fold_scan_bounds (rt : Runtime) (texts : list string) :
  forall totals,
    let totals' := foldl (fun totals text => scan_text rt text totals)
                         totals texts in
    totals'.1 + totals'.2
      <= totals.1 + totals.2 + sum_list (String.length <$> texts) /\
    totals'.2
      <= totals.2 + sum_list ((fun text =>
             List.length (nonws_chars (re_space rt) text)) <$> texts).
Proof.
  induction texts as [|text texts IH]; intros totals; csimpl; [lia|].
  destruct (IH (scan_text rt text totals)) as [H1 H2].
  destruct (scan_text_bounds rt text totals) as [S1 S2].
  simpl in *. lia.
Qed.

(** X6. Every character of the texts is counted at most once: the two
    totals together never exceed the number of characters visited, and the
    lower total never exceeds the number of characters that are not
    whitespace. *)
Theorem case_totals_bounded (rt : Runtime) (self : EmailContent) :
  (case_totals rt self).1 + (case_totals rt self).2 <= scanned_chars self /\
  (case_totals rt self).2
    <= sum_list ((fun text => List.length (nonws_chars (re_space rt) text))
                   <$> process self).
Proof.
  unfold case_totals, scanned_chars.
  destruct (fold_scan_bounds rt (process self) (0, 0)) as [H1 H2].
  simpl in *. lia.
Qed.

(** ** Decoding, case by case *)

Lemma length_string_of_list_byte (b : list byte) :
  String.length (string_of_list_byte b) = List.length b.
Proof.
  unfold string_of_list_byte.
  induction b as [|x b IH]; simpl; [reflexivity|]. rewrite IH. reflexivity.
Qed.

(** X7. A part whose charset is absent or is a placeholder label, in any
    case, is decoded as Latin-1 without a look at the codec registry: the
    text has one character per byte and encodes back to the payload. *)
Theorem safe_get_content_placeholder (rt : Runtime) h t
    (charset : option string) (b : list byte) :
  (charset = None \/
   exists label, charset = Some label /\
                 str_lower rt label ∈ ["default_charset"; "unknown-8bit"]) ->
  _safe_get_content rt (Message h t charset (inl b)) = Ok (string_of_list_byte b) /\
  String.length (string_of_list_byte b) = List.length b /\
  list_byte_of_string (string_of_list_byte b) = b.
Proof.
  intros H. split_and!.
  - destruct H as [-> | (label & -> & H)]; [reflexivity|].
    unfold _safe_get_content. simpl. rewrite bool_decide_eq_true_2 by exact H.
    reflexivity.
  - apply length_string_of_list_byte.
  - apply list_byte_of_string_of_list_byte.
Qed.

Lemma safe_get_content_placeholder_witness :
  _safe_get_content cpython placeholder_charset_message
    = Ok (string_of_list_byte (list_byte_of_string "abc")) /\
  String.length (string_of_list_byte (list_byte_of_string "abc"))
    = List.length (list_byte_of_string "abc") /\
  list_byte_of_string (string_of_list_byte (list_byte_of_string "abc"))
    = list_byte_of_string "abc".
Proof.
  apply (safe_get_content_placeholder cpython _ _ (Some "DEFAULT_CHARSET")).
  right. exists "DEFAULT_CHARSET". split; [reflexivity|].
  vm_compute. left.
Defined.

(** X8. When the codec of the declared label raises a [LookupError] (an
    unknown label) or a [UnicodeDecodeError], the part is decoded as
    Latin-1 instead. *)
Theorem safe_get_content_fallback (rt : Runtime) h t (label : string)
    (b : list byte) (e : exn) :
  str_lower rt label ∉ ["default_charset"; "unknown-8bit"] ->
  label <> "latin-1" ->
  codec_decode rt label b = Raise e ->
  caught e = true ->
  _safe_get_content rt (Message h t (Some label) (inl b))
  = Ok (string_of_list_byte b).
Proof.
  intros Hplace Hlatin Hraise Hcaught.
  unfold _safe_get_content. simpl. rewrite bool_decide_eq_false_2 by exact Hplace.
  unfold bytes_decode at 1.
  destruct (String.eqb_spec label "latin-1") as [E|_]; [contradiction|].
  rewrite Hraise. unfold caught in Hcaught. rewrite Hcaught. reflexivity.
Qed.

Lemma safe_get_content_fallback_witness :
  _safe_get_content cpython bogus_charset_message
  = Ok (string_of_list_byte (list_byte_of_string "abc")).
Proof.
  apply (safe_get_content_fallback cpython _ _ "x-bogus" _ LookupError).
  - vm_compute. intros H. repeat (inversion H as [|? ? ? H']; clear H; rename H' into H).
  - discriminate.
  - reflexivity.
  - reflexivity.
Defined.

(** X9. The decoder never raises an exception of a class that its handler
    catches: what it raises is neither a [LookupError] (nor one of its
    subclasses) nor a [UnicodeDecodeError]. *)
Theorem safe_get_content_raises_uncaught (rt : Runtime) (part : EmailMessage)
    (e : exn) :
  _safe_get_content rt part = Raise e -> caught e = false.
Proof.
  unfold _safe_get_content, payload_bytes, caught.
  destruct (get_payload_decode part) as [b|]; simpl.
  - match goal with |- context [bytes_decode rt ?cs b] => generalize cs end.
    intros charset. destruct (bytes_decode rt charset b) as [text|e0]; [discriminate|].
    destruct (is_LookupError e0 || is_UnicodeDecodeError e0) eqn:E.
    + unfold bytes_decode. simpl. discriminate.
    + intros [= <-]. exact E.
  - intros [= <-]. reflexivity.
Qed.

Lemma safe_get_content_raises_uncaught_witness : caught UnicodeError = false.
Proof.
  apply (safe_get_content_raises_uncaught cpython undefined_charset_message).
  reflexivity.
Defined.

(** ** The body of a single part *)

(** X10. Whenever the body of a message that is not multipart is extracted,
    the bundle is not multipart, has no ignored part, counts the lower-cased
    content type once and nothing else, and never has both bodies: its kind
    is not ["both"]. *)
Theorem single_part_bundle (rt : Runtime) (email : EmailMessage)
    (content : EmailContent) :
  is_multipart email = false ->
  _get_body rt email = Ok content ->
  multipart content = false /\
  non_main_count content = 0 /\
  content_types content = [(str_lower rt (get_content_type email), 1)] /\
  (html content = None \/ plain content = None) /\
  type content <> TYPE_BOTH.
Proof.
  intros Hsingle. unfold _get_body. rewrite Hsingle.
  destruct (String.eqb _ CONTENT_TYPE_HTML).
  - intros (text & _ & [= <-])%bind_Ok. split_and!; auto; discriminate.
  - destruct (String.eqb _ CONTENT_TYPE_PLAIN).
    + intros (text & _ & [= <-])%bind_Ok. split_and!; auto; discriminate.
    + intros [= <-]. split_and!; auto; discriminate.
Qed.

Lemma single_part_bundle_witness :
  exists content,
    _get_body cpython hello_message = Ok content /\
    multipart content = false /\
    non_main_count content = 0 /\
    content_types content
      = [(str_lower cpython (get_content_type hello_message), 1)] /\
    (html content = None \/ plain content = None) /\
    type content <> TYPE_BOTH.
Proof.
  eexists. split; [reflexivity|].
  apply (single_part_bundle cpython hello_message); reflexivity.
Defined.

(** X11. A single part of a type other than [text/html] and [text/plain]
    (also one that claims a [multipart/] type without having parts) is never
    decoded: extraction returns a bundle with both bodies null, whatever the
    charset and the payload are. *)
Theorem unhandled_single_part (rt : Runtime) h t charset (b : list byte) :
  str_lower rt t <> CONTENT_TYPE_HTML ->
  str_lower rt t <> CONTENT_TYPE_PLAIN ->
  _get_body rt (Message h t charset (inl b))
  = Ok (EmailContent_init rt None None [(str_lower rt t, 1)] false 0).
Proof.
  intros Hh Hp. unfold _get_body. simpl.
  destruct (String.eqb_spec (str_lower rt t) CONTENT_TYPE_HTML); [contradiction|].
  destruct (String.eqb_spec (str_lower rt t) CONTENT_TYPE_PLAIN); [contradiction|].
  reflexivity.
Qed.

Lemma unhandled_single_part_witness :
  _get_body cpython image_message
  = Ok (EmailContent_init cpython None None [(str_lower cpython "image/png", 1)]
          false 0).
Proof.
  apply (unhandled_single_part cpython); vm_compute; discriminate.
Defined.

(** X12. For a single plain-text part without a declared charset, the plain
    body is the Latin-1 text of the payload and the total length of the
    bundle is the number of payload bytes. *)
Theorem plain_part_length (rt : Runtime) h t (b : list byte) :
  str_lower rt t = CONTENT_TYPE_PLAIN ->
  exists content,
    _get_body rt (Message h t None (inl b)) = Ok content /\
    html content = None /\
    plain content = Some (string_of_list_byte b) /\
    get_total_length content = List.length b.
Proof.
  intros Ht. unfold _get_body. simpl. rewrite Ht. simpl.
  eexists. split; [reflexivity|]. split_and!; try reflexivity.
  unfold get_total_length. simpl. apply length_string_of_list_byte.
Qed.

Lemma plain_part_length_witness :
  exists content,
    _get_body cpython hello_message = Ok content /\
    html content = None /\
    plain content = Some (string_of_list_byte (list_byte_of_string "HELLO world!!")) /\
    get_total_length content = List.length (list_byte_of_string "HELLO world!!").
Proof.
  apply (plain_part_length cpython _ "text/plain"). reflexivity.
Defined.

(** ** The multipart loop, part by part *)

Lemma mapM_app {A B} (f : A -> result B) (l1 l2 : list A) (ys1 ys2 : list B) :
  mapM f l1 = Ok ys1 -> mapM f l2 = Ok ys2 -> mapM f (l1 ++ l2) = Ok (ys1 ++ ys2).
Proof.
  revert ys1. induction l1 as [|x l1 IH]; intros ys1; simpl.
  - intros [= <-] H. exact H.
  - intros (y & Hy & (ys & Hys & [= <-])%bind_Ok)%bind_Ok H2.
    rewrite Hy. simpl. rewrite (IH ys Hys H2). reflexivity.
Qed.

(** The fragments that one run of the loop appends are the decoded texts of
    the HTML parts and of the plain parts, each in the order of the parts. *)
Lemma body_loop_fragments (rt : Runtime) (ps : list EmailMessage) :
  forall st st',
    body_loop rt ps st = Ok st' ->
    exists htmls plains,
      mapM (_safe_get_content rt) (List.filter is_html ps) = Ok htmls /\
      mapM (_safe_get_content rt) (List.filter is_plain ps) = Ok plains /\
      fragments st' HTML = fragments st HTML ++ htmls /\
      fragments st' PLAIN = fragments st PLAIN ++ plains.
Proof.
  induction ps as [|part ps IH]; intros st st'; simpl.
  - intros [= <-]. exists [], []. rewrite !app_nil_r. auto.
  - intros (st1 & Hstep & Hloop)%bind_Ok.
    destruct (IH _ _ Hloop) as (htmls & plains & Hh & Hp & Fh & Fp).
    revert Hstep. unfold body_step.
    destruct (dict_item _ _) as [n|e]; simpl; [|discriminate].
    fold (is_html part). fold (is_plain part).
    destruct (is_html part) eqn:Eh.
    + rewrite (html_not_plain _ Eh).
      intros (text & Htext & [= <-])%bind_Ok.
      rewrite fragments_append_eq in Fh.
      rewrite fragments_append_ne in Fp by discriminate.
      exists (text :: htmls), plains. simpl. rewrite Htext, Hh. simpl.
      rewrite Fh, <- app_assoc. auto.
    + destruct (is_plain part) eqn:Ep.
      * intros (text & Htext & [= <-])%bind_Ok.
        rewrite fragments_append_eq in Fp.
        rewrite fragments_append_ne in Fh by discriminate.
        exists htmls, (text :: plains). simpl. rewrite Htext, Hp. simpl.
        rewrite Fp, <- app_assoc. auto.
      * intros [= <-]. exists htmls, plains. auto.
Qed.

(** X13. Whenever the body of a multipart message is extracted, its HTML
    body is the decoded texts of the [text/html] parts, in document order,
    joined with newlines, and null when there is no such part; the same
    holds of the plain body and the [text/plain] parts. *)
Theorem multipart_bodies_in_order (rt : Runtime) (email : EmailMessage)
    (content : EmailContent) :
  is_multipart email = true ->
  _get_body rt email = Ok content ->
  exists htmls plains,
    mapM (_safe_get_content rt) (List.filter is_html (iter_parts email)) = Ok htmls /\
    mapM (_safe_get_content rt) (List.filter is_plain (iter_parts email)) = Ok plains /\
    html content = (if htmls is [] then None else Some (join NEWLINE htmls)) /\
    plain content = (if plains is [] then None else Some (join NEWLINE plains)).
Proof.
  intros Hmulti. unfold _get_body. rewrite Hmulti.
  intros (st & Hst & [= <-])%bind_Ok.
  destruct (body_loop_fragments _ _ _ _ Hst) as (htmls & plains & Hh & Hp & Fh & Fp).
  destruct (body_loop_counts _ _ _ _ Hst) as (_ & _ & _ & _ & Hne).
  assert (Hne' : no_empty_entry (parts st)).
  { apply Hne. intros key. unfold body_loop_init. simpl.
    rewrite lookup_empty. discriminate. }
  exists htmls, plains. split_and!; try assumption; simpl.
  - unfold fragments in Fh. simpl in Fh. rewrite lookup_empty in Fh. simpl in Fh.
    unfold concat_parts. specialize (Hne' HTML).
    destruct (parts st !! HTML) as [l|]; simpl in *; subst; [|reflexivity].
    destruct htmls; [contradiction|reflexivity].
  - unfold fragments in Fp. simpl in Fp. rewrite lookup_empty in Fp. simpl in Fp.
    unfold concat_parts. specialize (Hne' PLAIN).
    destruct (parts st !! PLAIN) as [l|]; simpl in *; subst; [|reflexivity].
    destruct plains; [contradiction|reflexivity].
Qed.

Lemma multipart_bodies_in_order_witness :
  exists content htmls plains,
    _get_body cpython alternative_message = Ok content /\
    mapM (_safe_get_content cpython)
         (List.filter is_html (iter_parts alternative_message)) = Ok htmls /\
    mapM (_safe_get_content cpython)
         (List.filter is_plain (iter_parts alternative_message)) = Ok plains /\
    html content = (if htmls is [] then None else Some (join NEWLINE htmls)) /\
    plain content = (if plains is [] then None else Some (join NEWLINE plains)).
Proof.
  eexists.
  enough (H : exists htmls plains, _ /\ _ /\ _ /\ _)
    by (destruct H as (htmls & plains & H); exists htmls, plains;
        split; [reflexivity | exact H]).
  apply (multipart_bodies_in_order cpython alternative_message); reflexivity.
Defined.

(** ** The counter of content types *)

Lemma dict_get_set_ne {V} (d : dict V) k k' v :
  k <> k' -> dict_get (dict_set d k v) k' = dict_get d k'.
Proof.
  intros Hne. induction d as [|[k0 v0] d IH]; simpl.
  - destruct (String.eqb_spec k k'); [contradiction|reflexivity].
  - destruct (String.eqb_spec k0 k) as [->|Hk]; simpl.
    + destruct (String.eqb_spec k k'); [contradiction|reflexivity].
    + rewrite IH. reflexivity.
Qed.

Lemma dict_get_None_keys {V} (d : dict V) k :
  dict_get d k = None <-> k ∉ dict_keys d.
Proof.
  unfold dict_keys. induction d as [|[k0 v0] d IH]; csimpl.
  - split; [intros _; apply not_elem_of_nil | reflexivity].
  - rewrite not_elem_of_cons.
    destruct (String.eqb_spec k0 k) as [->|Hk].
    + split; [discriminate | intros [H _]; contradiction].
    + rewrite IH. split; [intros H; split; [congruence | exact H] | intros [_ H]; exact H].
Qed.

Lemma dict_keys_set {V} (d : dict V) k v :
  dict_keys (dict_set d k v)
  = if dict_contains d k then dict_keys d else dict_keys d ++ [k].
Proof.
  unfold dict_keys, dict_contains. induction d as [|[k0 v0] d IH]; csimpl.
  - reflexivity.
  - destruct (String.eqb_spec k0 k) as [->|Hk]; csimpl; [reflexivity|].
    rewrite IH. destruct (dict_get d k); reflexivity.
Qed.

Lemma dict_set_NoDup {V} (d : dict V) k v :
  NoDup (dict_keys d) -> NoDup (dict_keys (dict_set d k v)).
Proof.
  intros H. rewrite dict_keys_set. unfold dict_contains.
  destruct (dict_get d k) eqn:E; [exact H|].
  apply NoDup_app. split_and!; [exact H | | apply NoDup_singleton].
  intros x Hx ->%list_elem_of_singleton.
  apply dict_get_None_keys in E. contradiction.
Qed.

(** One round of the loop on the counter: the type of the part gains one,
    the others stay, and the keys stay distinct. *)
Lemma body_step_counter (rt : Runtime) (st st' : BodyLoop) (part : EmailMessage) :
  body_step rt st part = Ok st' ->
  (forall t,
     dict_get (types_counter st') t
     = if String.eqb (get_content_type part) t
       then Some (default 0 (dict_get (types_counter st) t) + 1)
       else dict_get (types_counter st) t) /\
  (NoDup (dict_keys (types_counter st)) -> NoDup (dict_keys (types_counter st'))).
Proof.
  unfold body_step.
  set (ct := get_content_type part).
  set (tc1 := if negb (dict_contains (types_counter st) ct)
              then dict_set (types_counter st) ct 0 else types_counter st).
  assert (H1 : dict_get tc1 ct = Some (default 0 (dict_get (types_counter st) ct))).
  { unfold tc1, dict_contains.
    destruct (dict_get (types_counter st) ct) eqn:E; simpl; [exact E|].
    apply dict_get_set_eq. }
  assert (H2 : forall t, ct <> t -> dict_get tc1 t = dict_get (types_counter st) t).
  { intros t Hne. unfold tc1. destruct (negb _); [|reflexivity].
    apply dict_get_set_ne, Hne. }
  assert (H3 : NoDup (dict_keys (types_counter st)) -> NoDup (dict_keys tc1)).
  { unfold tc1. destruct (negb _); [apply dict_set_NoDup | auto]. }
  unfold dict_item. rewrite H1. simpl.
  set (tc2 := dict_set tc1 ct (default 0 (dict_get (types_counter st) ct) + 1)).
  assert (G : (forall t,
                 dict_get tc2 t
                 = if String.eqb ct t
                   then Some (default 0 (dict_get (types_counter st) t) + 1)
                   else dict_get (types_counter st) t) /\
              (NoDup (dict_keys (types_counter st)) -> NoDup (dict_keys tc2))).
  { split.
    - intros t. unfold tc2. destruct (String.eqb_spec ct t) as [<-|Hne].
      + apply dict_get_set_eq.
      + rewrite dict_get_set_ne by exact Hne. apply H2, Hne.
    - intros H. apply dict_set_NoDup, H3, H. }
  repeat match goal with
         | |- context [if ?b then _ else _] => destruct b
         | |- context [_safe_get_content rt part] =>
             destruct (_safe_get_content rt part); simpl; [|discriminate]
         end; intros [= <-]; exact G.
Qed.

Lemma body_loop_counter (rt : Runtime) (ps : list EmailMessage) :
  forall st st',
    body_loop rt ps st = Ok st' ->
    (forall t,
       dict_get (types_counter st') t
       = match List.length (parts_of_type t ps) with
         | 0 => dict_get (types_counter st) t
         | S n => Some (default 0 (dict_get (types_counter st) t) + S n)
         end) /\
    (NoDup (dict_keys (types_counter st)) -> NoDup (dict_keys (types_counter st'))).
Proof.
  induction ps as [|part ps IH]; intros st st'; simpl.
  - intros [= <-]. auto.
  - intros (st1 & Hstep & Hloop)%bind_Ok.
    destruct (body_step_counter _ _ _ _ Hstep) as [S1 S2].
    destruct (IH _ _ Hloop) as [L1 L2].
    split; [|auto].
    intros t. rewrite L1, S1. unfold parts_of_type.
    destruct (String.eqb (get_content_type part) t); simpl;
      destruct (List.length _); simpl; f_equal; lia.
Qed.

(** X14. Whenever the body of a multipart message is extracted, the entry
    of a content type in its counts is the number of direct parts of that
    type, a type that no part has is absent, and no type is listed twice. *)
Theorem content_types_per_type (rt : Runtime) (email : EmailMessage)
    (content : EmailContent) :
  is_multipart email = true ->
  _get_body rt email = Ok content ->
  (forall t,
     dict_get (content_types content) t
     = match List.length (parts_of_type t (iter_parts email)) with
       | 0 => None
       | S n => Some (S n)
       end) /\
  NoDup (dict_keys (content_types content)).
Proof.
  intros Hmulti. unfold _get_body. rewrite Hmulti.
  intros (st & Hst & [= <-])%bind_Ok. simpl.
  destruct (body_loop_counter _ _ _ _ Hst) as [L1 L2]. split.
  - intros t. rewrite L1. reflexivity.
  - apply L2. constructor.
Qed.

Lemma content_types_per_type_witness :
  exists content,
    _get_body cpython alternative_message = Ok content /\
    (forall t,
       dict_get (content_types content) t
       = match List.length (parts_of_type t (iter_parts alternative_message)) with
         | 0 => None
         | S n => Some (S n)
         end) /\
    NoDup (dict_keys (content_types content)).
Proof.
  eexists. split; [reflexivity|].
  apply (content_types_per_type cpython alternative_message); reflexivity.
Defined.

(** ** When a record is built *)

Lemma split_no_second (addr : string) :
  count "@" addr = 0 -> index (split "@" addr) 1 = Raise IndexError.
Proof.
  intros H. unfold index.
  rewrite (lookup_ge_None_2 (split "@" addr) 1); [reflexivity|].
  rewrite split_length, H. simpl. lia.
Qed.

Lemma uses_freemail_returns (pairs : list (string * string)) :
  returns (uses_freemail pairs) <->
  exists name addr rest, pairs = (name, addr) :: rest /\ 0 < count "@" addr.
Proof.
  split.
  - intros [b H]. destruct pairs as [|[name addr] rest]; [discriminate|].
    exists name, addr, rest. split; [reflexivity|].
    destruct (count "@" addr) eqn:E; [|lia].
    unfold uses_freemail in H. simpl in H.
    rewrite (split_no_second addr E) in H. discriminate.
  - intros (name & addr & rest & -> & H).
    rewrite (uses_freemail_first _ _ _ H). eexists; reflexivity.
Qed.

(** X15. A record is built only when the body is extracted, the From
    header parses to at least one pair whose email holds an [@], and the
    Reply-To header parses to at least one pair. *)
Theorem convert_one_returns_only_if (rt : Runtime) (email : EmailMessage)
    (msg_data : dict Value) :
  _convert_one rt email = Ok msg_data ->
  returns (_get_body rt email) /\
  (exists name addr rest,
     getaddresses rt [get email "From"] = (name, addr) :: rest /\
     0 < count "@" addr) /\
  getaddresses rt [get email "Reply-To"] <> [].
Proof.
  intros H. unfold _convert_one in H. returned H.
  split_and!.
  - eexists; eassumption.
  - apply uses_freemail_returns. eexists; eassumption.
  - intros E. rewrite E in *. discriminate.
Qed.

Lemma convert_one_returns_only_if_witness :
  returns (_get_body cpython hello_message) /\
  (exists name addr rest,
     getaddresses cpython [get hello_message "From"] = (name, addr) :: rest /\
     0 < count "@" addr) /\
  getaddresses cpython [get hello_message "Reply-To"] <> [].
Proof.
  eapply (convert_one_returns_only_if cpython hello_message).
  vm_compute. reflexivity.
Defined.

Lemma get_body_multipart_flag (rt : Runtime) (email : EmailMessage)
    (content : EmailContent) :
  _get_body rt email = Ok content -> multipart content = is_multipart email.
Proof.
  unfold _get_body. destruct (is_multipart email).
  - intros (st & _ & [= <-])%bind_Ok. reflexivity.
  - repeat match goal with
           | |- context [if ?b then _ else _] => destruct b
           end;
      try (intros (text & _ & [= <-])%bind_Ok; reflexivity).
    intros [= <-]. reflexivity.
Qed.

Lemma convert_one_content (rt : Runtime) (email : EmailMessage)
    (msg_data : dict Value) :
  _convert_one rt email = Ok msg_data ->
  exists content,
    _get_body rt email = Ok content /\
    dict_get msg_data "multipart" = Some (VBool (multipart content)) /\
    dict_get msg_data "non_main_content" = Some (VInt (non_main_count content)) /\
    dict_get msg_data "type" = Some (VStr (type content)) /\
    dict_get msg_data "html_body" = Some (opt_str (html content)) /\
    dict_get msg_data "plain_body" = Some (opt_str (plain content)).
Proof.
  unfold _convert_one. intros H. returned H. injection H as <-.
  eexists. split; [eassumption|]. split_and!; reflexivity.
Qed.

(** X16. In every record that is built, the [multipart] cell tells whether
    the message is multipart; for a message that is not, [non_main_content]
    is 0, the kind is not ["both"], and one of the two bodies is null. *)
Theorem record_multipart_flag (rt : Runtime) (email : EmailMessage)
    (msg_data : dict Value) :
  _convert_one rt email = Ok msg_data ->
  dict_get msg_data "multipart" = Some (VBool (is_multipart email)) /\
  (is_multipart email = false ->
   dict_get msg_data "non_main_content" = Some (VInt 0) /\
   dict_get msg_data "type" <> Some (VStr "both") /\
   (dict_get msg_data "html_body" = Some VNone \/
    dict_get msg_data "plain_body" = Some VNone)).
Proof.
  intros (content & Hc & Hm & Hn & Ht & Hh & Hp)%convert_one_content.
  rewrite (get_body_multipart_flag _ _ _ Hc) in Hm. split; [exact Hm|].
  intros Hsingle. unfold _get_body in Hc. rewrite Hsingle in Hc.
  rewrite Hn, Ht, Hh, Hp.
  destruct (String.eqb _ CONTENT_TYPE_HTML).
  - apply bind_Ok in Hc as (text & _ & [= <-]). split_and!; auto; discriminate.
  - destruct (String.eqb _ CONTENT_TYPE_PLAIN).
    + apply bind_Ok in Hc as (text & _ & [= <-]). split_and!; auto; discriminate.
    + injection Hc as <-. split_and!; auto; discriminate.
Qed.

Lemma record_multipart_flag_witness :
  exists msg_data,
    _convert_one cpython hello_message = Ok msg_data /\
    dict_get msg_data "multipart" = Some (VBool (is_multipart hello_message)) /\
    (is_multipart hello_message = false ->
     dict_get msg_data "non_main_content" = Some (VInt 0) /\
     dict_get msg_data "type" <> Some (VStr "both") /\
     (dict_get msg_data "html_body" = Some VNone \/
      dict_get msg_data "plain_body" = Some VNone)).
Proof.
  eexists. split; [vm_compute; reflexivity|].
  apply (record_multipart_flag cpython hello_message). vm_compute. reflexivity.
Defined.

(** ** The sender's provider *)

Lemma after_first_at_app (local domain : string) :
  count "@" local = 0 ->
  after_first_at (local +:+ "@" +:+ domain) = domain.
Proof.
  induction local as [|c local IH]; simpl; [reflexivity|].
  destruct (Ascii.eqb c "@"); [discriminate|]. exact IH.
Qed.

Lemma count_app (c : ascii) (a b : string) :
  count c (a +:+ b) = count c a + count c b.
Proof. induction a as [|x a IH]; simpl; [reflexivity|]. rewrite IH. lia. Qed.

Lemma up_to_at_none (s : string) : count "@" s = 0 -> up_to_at s = s.
Proof.
  induction s as [|c s IH]; simpl; [reflexivity|].
  destruct (Ascii.eqb c "@"); [discriminate|]. intros H. rewrite IH by exact H.
  reflexivity.
Qed.

(** X17. The provider test is a test of the end of the domain, not of the
    domain: a sender [local@domain] with a single [@] is flagged as soon as
    its domain ends with the text of a provider, whatever precedes it (a
    subdomain, or a longer name such as [notgmail.com]). *)
Theorem uses_freemail_suffix (name local prefix provider : string)
    (rest : list (string * string)) :
  In provider FREEMAIL ->
  count "@" local = 0 ->
  count "@" prefix = 0 ->
  uses_freemail ((name, local +:+ "@" +:+ prefix +:+ provider) :: rest) = Ok true.
Proof.
  intros Hin Hl Hp.
  assert (Hprov : count "@" provider = 0).
  { simpl in Hin. destruct Hin as [<-|[<-|[<-|[<-|[]]]]]; reflexivity. }
  rewrite uses_freemail_first.
  - rewrite after_first_at_app by exact Hl.
    rewrite up_to_at_none by (rewrite count_app; lia).
    f_equal. apply endswith_any_spec. eauto.
  - rewrite !count_app. simpl. lia.
Qed.

Lemma uses_freemail_suffix_witness :
  uses_freemail [(EmptyString, "x" +:+ "@" +:+ "not" +:+ "gmail.com")] = Ok true.
Proof.
  apply (uses_freemail_suffix EmptyString "x" "not" "gmail.com" []).
  - left. reflexivity.
  - reflexivity.
  - reflexivity.
Defined.

(** ** Words and exclamation marks of a bundle *)

Lemma count_words_spaces_aux (text : string) : 1 <= _count_words text.
Proof. unfold _count_words. rewrite split_length. lia. Qed.

(** X18. The word count of a bundle is zero only when both bodies are null:
    a body that is present counts at least one word, also when it is
    empty. *)
Theorem word_count_zero_iff (rt : Runtime) (html plain : option string)
    (cts : dict nat) (mp : bool) (n : nat) :
  get_word_count rt (EmailContent_init rt html plain cts mp n) = 0
  <-> html = None /\ plain = None.
Proof.
  unfold get_word_count, EmailContent_init. simpl. split.
  - destruct html as [h|], plain as [p|]; simpl; intros H; auto; exfalso.
    + pose proof (count_words_spaces_aux (html_to_text rt h)). lia.
    + pose proof (count_words_spaces_aux (html_to_text rt h)). lia.
    + pose proof (count_words_spaces_aux (_collapse_spaces rt p)). lia.
  - intros [-> ->]. reflexivity.
Qed.

Lemma count_le_length (c : ascii) (s : string) : count c s <= String.length s.
Proof.
  induction s as [|x s IH]; simpl; [lia|]. destruct (Ascii.eqb x c); lia.
Qed.

Lemma scan_text_exclamations (rt : Runtime) (text : string) :
  str_upper rt "!" = "!" ->
  forall totals,
    totals.1 + count "!" text <= (scan_text rt text totals).1.
Proof.
  intros Hbang. induction text as [|c text IH]; intros totals; simpl; [lia|].
  specialize (IH (classify rt c totals)).
  assert (H : totals.1 + (if Ascii.eqb c "!" then 1 else 0)
              <= (classify rt c totals).1).
  { destruct totals as [u l]. unfold classify.
    destruct (Ascii.eqb_spec c "!") as [->|_].
    - rewrite Hbang. simpl. lia.
    - destruct (String.eqb _ _); [simpl; lia|].
      destruct (negb _); simpl; lia. }
  lia.
Qed.

(** X19. When ["!"] is its own uppercase form, every exclamation mark of the
    bundle counts as an uppercase character: the exclamation count never
    exceeds the upper total of the ratio, which never exceeds the number of
    characters visited. *)
Theorem exclamations_count_as_upper (rt : Runtime) (self : EmailContent) :
  str_upper rt "!" = "!" ->
  get_explamation_count self <= (case_totals rt self).1 /\
  (case_totals rt self).1 <= scanned_chars self.
Proof.
  intros Hbang. split.
  - unfold get_explamation_count, case_totals, process.
    destruct (html_text self) as [t|], (plain self) as [p|]; simpl.
    + pose proof (scan_text_exclamations rt t Hbang (0, 0)).
      pose proof (scan_text_exclamations rt p Hbang (scan_text rt t (0, 0))).
      simpl in *. lia.
    + pose proof (scan_text_exclamations rt t Hbang (0, 0)). simpl in *. lia.
    + pose proof (scan_text_exclamations rt p Hbang (0, 0)). simpl in *. lia.
    + lia.
  - unfold case_totals, scanned_chars.
    destruct (fold_scan_bounds rt (process self) (0, 0)) as [H1 _].
    simpl in *. lia.
Qed.

Lemma exclamations_count_as_upper_witness :
  let self := EmailContent_init cpython None (Some "HELLO world!!") [] false 0 in
  get_explamation_count self <= (case_totals cpython self).1 /\
  (case_totals cpython self).1 <= scanned_chars self.
Proof.
  apply (exclamations_count_as_upper cpython). reflexivity.
Defined.

(** ** The batch, message by message *)

Lemma read_loop_app (rt : Runtime) (xs ys : list string) :
  forall dict_list,
    read_loop rt (xs ++ ys) dict_list
    = (l ← read_loop rt xs dict_list; read_loop rt ys l).
Proof.
  induction xs as [|path xs IH]; intros dict_list; simpl; [reflexivity|].
  destruct (load_email rt path) as [email|e]; simpl; [|reflexivity].
  destruct (_convert_one rt email) as [converted|e]; simpl; [|reflexivity].
  apply IH.
Qed.

(** What the loop returned was appended record by record. *)
Lemma read_loop_returned (rt : Runtime) (emails : list string) :
  forall dict_list l,
    read_loop rt emails dict_list = Ok l ->
    exists converted,
      Forall2 (fun path msg_data => load_and_convert rt path = Ok msg_data)
              emails converted /\
      l = dict_list ++ converted.
Proof.
  induction emails as [|path emails IH]; intros dict_list l; simpl.
  - intros [= <-]. exists []. rewrite app_nil_r. split; constructor.
  - intros (email & Hload & (msg_data & Hone & Hrest)%bind_Ok)%bind_Ok.
    destruct (IH _ _ Hrest) as (converted & Hall & ->).
    exists (msg_data :: converted). rewrite <- app_assoc. split; [|reflexivity].
    constructor; [|exact Hall].
    unfold load_and_convert. rewrite Hload. exact Hone.
Qed.

(** X20. Whenever the batch read returns a table, no source was skipped:
    the rows are as many as the sources, the row at each position is the
    record of the source at that position, and every row has the 33 keys
    of [msg_data]. *)
Theorem read_returned_rows (rt : Runtime) (emails : list string) (df : DataFrame) :
  read rt emails = Ok df ->
  List.length (rows df) = List.length emails /\
  Forall2 (fun path row => load_and_convert rt path = Ok row) emails (rows df) /\
  Forall (fun row => dict_keys row = msg_data_keys) (rows df).
Proof.
  unfold read. intros (l & Hloop & [= <-])%bind_Ok. simpl.
  destruct (read_loop_returned _ _ _ _ Hloop) as (converted & Hall & ->). simpl.
  split_and!.
  - symmetry. eapply Forall2_length, Hall.
  - exact Hall.
  - clear Hloop. induction Hall as [|path row ? ? Hone _ IH]; constructor; [|exact IH].
    apply bind_Ok in Hone as (email & _ & Hone).
    apply (convert_one_fields rt email row Hone).
Qed.

Lemma read_returned_rows_witness :
  exists df,
    read cpython ["easy_ham/00066"; "easy_ham/00067"] = Ok df /\
    List.length (rows df) = 2 /\
    Forall2 (fun path row => load_and_convert cpython path = Ok row)
            ["easy_ham/00066"; "easy_ham/00067"] (rows df) /\
    Forall (fun row => dict_keys row = msg_data_keys) (rows df).
Proof.
  eexists. split; [vm_compute; reflexivity|].
  apply (read_returned_rows cpython ["easy_ham/00066"; "easy_ham/00067"]).
  vm_compute. reflexivity.
Defined.

(** X21. The first source that fails to load or to convert ends the batch:
    when the sources before it convert, the read raises the exception of
    that source and returns no table, whatever follows it. *)
Theorem read_first_failure (rt : Runtime) (before after : list string)
    (path : string) (converted : list (dict Value)) (e : exn) :
  Forall2 (fun p msg_data => load_and_convert rt p = Ok msg_data) before converted ->
  load_and_convert rt path = Raise e ->
  read rt (before ++ path :: after) = Raise e.
Proof.
  intros Hbefore Hfail. unfold read.
  rewrite read_loop_app, (read_loop_appends rt before converted Hbefore []).
  simpl. unfold load_and_convert in Hfail.
  destruct (load_email rt path) as [email|e0]; simpl in *.
  - rewrite Hfail. reflexivity.
  - injection Hfail as ->. reflexivity.
Qed.

Lemma read_first_failure_witness :
  read cpython (["easy_ham/00066"] ++ "easy_ham/missing" :: ["easy_ham/00067"])
  = Raise OSError.
Proof.
  eapply (read_first_failure cpython ["easy_ham/00066"]).
  - constructor; [vm_compute; reflexivity | constructor].
  - reflexivity.
Defined.

(** X22. Reading two lists of sources one after the other gives the rows
    of the first table followed by the rows of the second. *)
Theorem read_app (rt : Runtime) (xs ys : list string) (dx dy : DataFrame) :
  read rt xs = Ok dx ->
  read rt ys = Ok dy ->
  exists df, read rt (xs ++ ys) = Ok df /\ rows df = rows dx ++ rows dy.
Proof.
  unfold read.
  intros (lx & Hx & [= <-])%bind_Ok (ly & Hy & [= <-])%bind_Ok.
  destruct (read_loop_returned _ _ _ _ Hx) as (cx & Hcx & ->).
  destruct (read_loop_returned _ _ _ _ Hy) as (cy & Hcy & ->).
  rewrite read_loop_app, Hx. simpl.
  rewrite (read_loop_appends rt ys cy Hcy cx). simpl.
  eexists. split; reflexivity.
Qed.

Lemma read_app_witness :
  exists dx dy df,
    read cpython ["easy_ham/00066"] = Ok dx /\
    read cpython ["easy_ham/00067"] = Ok dy /\
    read cpython (["easy_ham/00066"] ++ ["easy_ham/00067"]) = Ok df /\
    rows df = rows dx ++ rows dy.
Proof.
  eexists; eexists.
  enough (H : exists df, _ /\ _)
    by (destruct H as (df & H1 & H2); exists df;
        split; [vm_compute; reflexivity|];
        split; [vm_compute; reflexivity|]; split; [exact H1 | exact H2]).
  apply (read_app cpython ["easy_ham/00066"] ["easy_ham/00067"]);
    vm_compute; reflexivity.
Defined.

(** ** The sender with a single [@] *)

Lemma after_first_at_single (addr : string) :
  count "@" addr = 1 -> count "@" (after_first_at addr) = 0.
Proof.
  induction addr as [|c addr IH]; simpl; [discriminate|].
  destruct (Ascii.eqb c "@"); simpl; [lia | exact IH].
Qed.

(** On a sender with exactly one [@] the flag is the test of the providers
    on the text after that [@]. *)
Lemma uses_freemail_single_at (name addr : string) (rest : list (string * string)) :
  count "@" addr = 1 ->
  uses_freemail ((name, addr) :: rest) = Ok (spec_uses_freemail addr).
Proof.
  intros H. rewrite uses_freemail_first by lia.
  unfold spec_uses_freemail.
  rewrite (up_to_at_none _ (after_first_at_single addr H)). reflexivity.
Qed.
